(** * Verification of the nutrition / wellness core of wellness_app

    Shallow embedding of the computation core of [app.py]
    ([macros_for_dish], [clamp01], [wellness_index_generic], the goal
    pacing of [goal_panel], [upsert_daily]), of [app_utils/goals.py] and
    of [features/insights.py] ([week_summary]).

    Python floats are modelled by exact rationals [Q]; Python's [round]
    by round-half-to-even on the exact value.  Calls that raise a Python
    exception return [Raise] in the result type [res]. *)

From Stdlib Require Import QArith Qround Qminmax Qabs ZArith Ascii String List Bool Lia Lqa.
From Stdlib Require Import Sorted Permutation.
Import ListNotations.
Open Scope Q_scope.
Open Scope string_scope.

(** ** Python results: a value or a raised exception *)

Inductive exn : Type :=
| NameError (name : string).

Inductive res (A : Type) : Type :=
| Ok (a : A)
| Raise (e : exn).
Arguments Ok {A} a.
Arguments Raise {A} e.

Definition bind {A B} (m : res A) (k : A -> res B) : res B :=
  match m with Ok a => k a | Raise e => Raise e end.

Notation "x <- m ;; k" := (bind m (fun x => k))
  (at level 61, m at next level, right associativity).

(** ** Python helpers *)

(** [dict.get(key, default)] on a dict literal, kept as an association
    list in source order (keys of a dict literal are distinct). *)
Fixpoint dict_get {V} (key : string) (d : list (string * V)) (dflt : V) : V :=
  match d with
  | [] => dflt
  | (k, v) :: d' => if String.eqb k key then v else dict_get key d' dflt
  end.

Fixpoint dict_find {V} (key : string) (d : list (string * V)) : option V :=
  match d with
  | [] => None
  | (k, v) :: d' => if String.eqb k key then Some v else dict_find key d'
  end.

(** Round half to even of a rational to the nearest integer. *)
Definition round_half_even (x : Q) : Z :=
  let f := Qfloor x in
  let r := x - inject_Z f in
  match Qcompare r (1 # 2) with
  | Lt => f
  | Gt => (f + 1)%Z
  | Eq => if Z.even f then f else (f + 1)%Z
  end.

(** Python [round(x, n)] for [n >= 0]. *)
Definition py_round (x : Q) (n : nat) : Q :=
  let p := inject_Z (10 ^ Z.of_nat n) in
  inject_Z (round_half_even (x * p)) / p.

(** numpy's [np.clip(a, lo, hi)] = [minimum(maximum(a, lo), hi)]. *)
Definition numpy_clip (a lo hi : Q) : Q := Qmin (Qmax a lo) hi.

Definition clip_fn : Type := Q -> Q -> Q -> Q.

(** The global name [np] as [app.py] sees it.  The module imports [os],
    [sqlite3], [datetime], [plotly], [pandas] and [streamlit] but never
    [numpy], so evaluating [np.clip] raises [NameError: name 'np' is not
    defined]. *)
Definition app_np : res clip_fn := Raise (NameError "np").

(** The same lookup in a namespace where [import numpy as np] ran. *)
Definition numpy_np : res clip_fn := Ok numpy_clip.

(** ** Static tables (ING_DB, DISH_RECIPES) *)

Record Ingredient : Type := mkIng {
  protein : Q; carbs : Q; fat : Q; kcal : Q; gerd : Q }.

Definition ING_DB : list (string * Ingredient) := [
  ("egg_whole", mkIng 12.6 1.1 10.0 143 0.05);
  ("egg_white", mkIng 11.0 0.7 0.2 52 0.02);
  ("milk_2pct", mkIng 3.4 4.8 2.0 50 0.05);
  ("curd_plain", mkIng 4.0 4.0 3.0 60 (-0.03));
  ("yogurt_plain", mkIng 10.0 6.0 3.0 100 (-0.05));
  ("buttermilk", mkIng 3.0 5.0 1.0 35 (-0.02));
  ("whey_powder", mkIng 80.0 8.0 6.0 400 0.05);
  ("rice_cooked", mkIng 2.7 28.0 0.3 130 0.00);
  ("brown_rice_cooked", mkIng 2.6 23.0 1.0 110 0.00);
  ("poha_cooked", mkIng 2.0 20.0 3.0 115 0.05);
  ("upma_cooked", mkIng 3.0 18.0 4.0 120 0.05);
  ("oats_cooked", mkIng 2.4 12.0 1.4 71 (-0.05));
  ("roti", mkIng 8.0 45.0 3.0 250 0.05);
  ("phulka", mkIng 8.0 47.0 2.5 240 0.05);
  ("paratha", mkIng 7.0 40.0 12.0 300 0.15);
  ("thepla", mkIng 8.0 40.0 8.0 260 0.12);
  ("bread", mkIng 9.0 49.0 3.2 265 0.10);
  ("dal_cooked", mkIng 9.0 20.0 0.5 120 0.05);
  ("rajma_cooked", mkIng 8.5 22.0 0.7 127 0.08);
  ("chole_cooked", mkIng 9.0 27.0 2.5 164 0.12);
  ("moong_sprouts", mkIng 3.0 6.0 0.2 35 0.02);
  ("chicken_cooked", mkIng 27.0 0.0 4.0 165 0.05);
  ("fish_cooked", mkIng 22.0 0.0 5.0 130 0.05);
  ("paneer", mkIng 18.0 2.0 20.0 265 0.10);
  ("tofu", mkIng 8.0 2.0 5.0 80 0.03);
  ("oil", mkIng 0.0 0.0 100.0 900 0.20);
  ("ghee", mkIng 0.0 0.0 100.0 900 0.22);
  ("veg_curry", mkIng 2.0 8.0 4.0 80 0.10);
  ("bhaji", mkIng 2.5 10.0 6.0 105 0.12);
  ("sambar", mkIng 4.0 10.0 2.0 70 0.08);
  ("banana", mkIng 1.1 23.0 0.3 89 (-0.03));
  ("fruit_mixed", mkIng 0.8 14.0 0.2 60 (-0.04));
  ("nuts_mixed", mkIng 18.0 16.0 50.0 600 0.10);
  ("dhokla", mkIng 7.0 25.0 4.0 160 0.10);
  ("khandvi", mkIng 8.0 18.0 6.0 160 0.10);
  ("fafda", mkIng 7.0 40.0 18.0 340 0.25);
  ("handvo", mkIng 8.0 22.0 9.0 210 0.18);
  ("khakhra", mkIng 10.0 65.0 8.0 360 0.10);
  ("undhiyu", mkIng 3.0 12.0 7.0 120 0.12);
  ("sev", mkIng 12.0 50.0 25.0 470 0.25);
  ("idli", mkIng 4.0 20.0 1.0 100 0.05);
  ("dosa", mkIng 5.0 25.0 6.0 170 0.10);
  ("pav_bhaji", mkIng 6.0 25.0 8.0 190 0.25);
  ("vada_pav", mkIng 6.0 30.0 12.0 250 0.30);
  ("samosa", mkIng 5.0 30.0 12.0 260 0.30);
  ("pizza", mkIng 11.0 33.0 10.0 285 0.30);
  ("burger", mkIng 13.0 24.0 13.0 250 0.30);
  ("fries", mkIng 3.4 41.0 15.0 312 0.35);
  ("black_coffee", mkIng 0.1 0.0 0.0 2 0.20);
  ("tea", mkIng 0.5 2.0 0.5 15 0.10) ].

Definition DISH_RECIPES : list (string * list (string * Q)) := [
  ("omelette", [("egg_whole", 120); ("oil", 5)]);
  ("boiled_eggs_2", [("egg_whole", 100)]);
  ("oats_bowl", [("oats_cooked", 300); ("milk_2pct", 200); ("banana", 120)]);
  ("poha", [("poha_cooked", 300); ("oil", 5)]);
  ("upma", [("upma_cooked", 300); ("oil", 5)]);
  ("idli_sambar", [("idli", 200); ("sambar", 250)]);
  ("dosa_sambar", [("dosa", 180); ("sambar", 250)]);
  ("dal_rice", [("dal_cooked", 250); ("rice_cooked", 250); ("oil", 5)]);
  ("rajma_rice", [("rajma_cooked", 250); ("rice_cooked", 250); ("oil", 5)]);
  ("chole_rice", [("chole_cooked", 250); ("rice_cooked", 250); ("oil", 5)]);
  ("roti_veg_curry", [("roti", 160); ("veg_curry", 250)]);
  ("roti_dal", [("roti", 160); ("dal_cooked", 250)]);
  ("paratha_curd", [("paratha", 180); ("curd_plain", 200)]);
  ("thepla_curd", [("thepla", 160); ("curd_plain", 200)]);
  ("egg_curry", [("egg_whole", 120); ("veg_curry", 200); ("oil", 10)]);
  ("chicken_curry_rice", [("chicken_cooked", 150); ("veg_curry", 200); ("rice_cooked", 250); ("oil", 10)]);
  ("biryani_chicken", [("rice_cooked", 300); ("chicken_cooked", 150); ("oil", 12)]);
  ("paneer_curry_roti", [("paneer", 150); ("veg_curry", 200); ("roti", 160)]);
  ("tofu_curry_roti", [("tofu", 180); ("veg_curry", 200); ("roti", 160)]);
  ("dhokla_plate", [("dhokla", 200)]);
  ("khandvi_plate", [("khandvi", 200)]);
  ("handvo_slice", [("handvo", 180)]);
  ("fafda", [("fafda", 120)]);
  ("khakhra_snack", [("khakhra", 60)]);
  ("undhiyu_roti", [("undhiyu", 300); ("roti", 160)]);
  ("sev_snack", [("sev", 40)]);
  ("pav_bhaji", [("pav_bhaji", 350)]);
  ("vada_pav", [("vada_pav", 200)]);
  ("samosa", [("samosa", 150)]);
  ("protein_shake", [("whey_powder", 30); ("milk_2pct", 250)]);
  ("banana_milk_shake", [("milk_2pct", 350); ("banana", 180)]);
  ("curd_bowl", [("curd_plain", 300); ("banana", 120); ("nuts_mixed", 25)]);
  ("pizza", [("pizza", 250)]);
  ("burger", [("burger", 220)]);
  ("fries", [("fries", 180)]) ].

(** ** [macros_for_dish] (app.py) *)

(** The local accumulators [carbs, protein, fat, kcal, gerd]. *)
Record Acc : Type := mkAcc {
  a_carbs : Q; a_protein : Q; a_fat : Q; a_kcal : Q; a_gerd : Q }.

Definition acc0 : Acc := mkAcc 0 0 0 0 0.

(** The returned dict, keys [carbs_g], [protein_g], [fat_g], [kcal],
    [gerd]. *)
Record MacroDict : Type := mkMacros {
  carbs_g : Q; protein_g : Q; fat_g : Q; kcal_out : Q; gerd_out : Q }.

Definition macros_zero : MacroDict := mkMacros 0 0 0 0 0.

(** [sum(g for _, g in recipe)]. *)
Definition recipe_sum (recipe : list (string * Q)) : Q :=
  fold_left (fun s item => s + snd item) recipe 0.

(** [ref_total], after [if ref_total <= 0: ref_total = 1.0]. *)
Definition ref_total_of (recipe : list (string * Q)) : Q :=
  let ref_total := recipe_sum recipe in
  if Qle_bool ref_total 0 then 1 else ref_total.

(** One iteration of [for ing, g in recipe]. *)
Definition macros_step (ref_total scale : Q) (acc : Acc) (item : string * Q) : Acc :=
  let (ing, g) := item in
  match dict_find ing ING_DB with
  | None => acc                                   (* if not base: continue *)
  | Some base =>
      let used_g := g * scale in
      let factor := used_g / 100 in
      mkAcc (a_carbs acc + carbs base * factor)
            (a_protein acc + protein base * factor)
            (a_fat acc + fat base * factor)
            (a_kcal acc + kcal base * factor)
            (a_gerd acc + gerd base * (used_g / ref_total))
  end.

(** The totals before the return statement (lines up to the loop's end). *)
Definition macros_loop (recipe : list (string * Q)) (grams : Q) : Acc :=
  let ref_total := ref_total_of recipe in
  let scale := grams / ref_total in
  fold_left (macros_step ref_total scale) recipe acc0.

Definition recipe_of (dish_name : string) : list (string * Q) :=
  dict_get dish_name DISH_RECIPES [].

(** [macros_for_dish(dish_name, grams)], in a namespace whose global [np]
    is [np]. *)
Definition macros_for_dish (np : res clip_fn) (dish_name : string) (grams : Q)
  : res MacroDict :=
  match recipe_of dish_name with
  | [] => Ok macros_zero
  | recipe =>
      let acc := macros_loop recipe grams in
      clip <- np ;;
      Ok (mkMacros (py_round (a_carbs acc) 1) (py_round (a_protein acc) 1)
                   (py_round (a_fat acc) 1) (py_round (a_kcal acc) 0)
                   (clip (a_gerd acc) (-0.3) 1))
  end.

(** ** [clamp01] and [wellness_index_generic] (app.py) *)

Definition clamp01 (np : res clip_fn) (x : Q) : res Q :=
  clip <- np ;; Ok (clip x 0 1).

Definition wellness_index_generic (np : res clip_fn)
  (kcal protein_g sleep_h exercise_min stress_0_10 : Q) : res Q :=
  sleep_score <- clamp01 np (1 - Qabs (sleep_h - 7.5) / 4.0) ;;
  exercise_score <- clamp01 np (Qmin exercise_min 60 / 60.0) ;;
  stress_score <- clamp01 np (1 - (stress_0_10 / 10.0)) ;;
  protein_score <- clamp01 np (Qmin protein_g 120 / 120.0) ;;
  kcal_score <- clamp01 np (Qmin kcal 3200 / 3200.0) ;;
  let score := 0.30 * sleep_score + 0.20 * exercise_score + 0.25 * stress_score
               + 0.15 * protein_score + 0.10 * kcal_score in
  Ok (py_round (100 * score) 1).

(** ** Dates and the goal pacing of [goal_panel] (app.py) *)

(** A [datetime.date]. *)
Record date : Type := mkDate { year : Z; month : Z; day : Z }.

Definition is_leap (y : Z) : bool :=
  (Z.eqb (y mod 4) 0 && negb (Z.eqb (y mod 100) 0)) || Z.eqb (y mod 400) 0.

(** [_DAYS_BEFORE_MONTH] of CPython's datetime module. *)
Definition days_before_month_table (m : Z) : Z :=
  match m with
  | 1 => 0 | 2 => 31 | 3 => 59 | 4 => 90 | 5 => 120 | 6 => 151
  | 7 => 181 | 8 => 212 | 9 => 243 | 10 => 273 | 11 => 304 | 12 => 334
  | _ => 0
  end%Z.

Definition days_before_year (y : Z) : Z :=
  let y := (y - 1)%Z in (y * 365 + y / 4 - y / 100 + y / 400)%Z.

Definition days_before_month (y m : Z) : Z :=
  (days_before_month_table m + (if (2 <? m)%Z && is_leap y then 1 else 0))%Z.

(** [date.toordinal()]. *)
Definition toordinal (d : date) : Z :=
  (days_before_year (year d) + days_before_month (year d) (month d) + day d)%Z.

(** [(a - b).days]. *)
Definition date_sub_days (a b : date) : Z := (toordinal a - toordinal b)%Z.

(** The plan shown by [goal_panel]:
    [days_left = max(1, (target_d - date.today()).days)],
    [kg_change = target_w - start_w], [per_day = kg_change / days_left]. *)
Record Plan : Type := mkPlan {
  days_left : Z; kg_change : Q; per_day : Q }.

Definition goal_plan (start_w target_w : Q) (target_d today : date) : Plan :=
  let days_left := Z.max 1 (date_sub_days target_d today) in
  let kg_change := target_w - start_w in
  mkPlan days_left kg_change (kg_change / inject_Z days_left).

(** ** [app_utils/goals.py] *)

Definition daily_weight_change (target_kg current_kg days_left : Q) : Q :=
  if Qle_bool days_left 0 then 0.0
  else (target_kg - current_kg) / days_left.

Definition protein_target (weight : Q) (goal_type : string) : Q :=
  if String.eqb goal_type "gain" then py_round (weight * 1.8) 1
  else if String.eqb goal_type "loss" then py_round (weight * 1.6) 1
  else py_round (weight * 1.5) 1.

(** ** [upsert_daily] (app.py) on the [daily] table *)

(** SQLite values bound by the driver ([None] is [NULL]). *)
Inductive SqlVal : Type :=
| VNull
| VReal (q : Q)
| VInt (z : Z)
| VText (s : string).

Definition daily_cols : list string :=
  ["weight_kg"; "sleep_hours"; "exercise_min"; "mood"; "stress"; "gerd_symptom";
   "glucose_mgdl"; "period_day"; "period_flow"; "period_symptoms";
   "insulin_units"; "extra_notes"].

(** A row of [daily]: [id], [person], [log_date] and the optional columns,
    kept as (column, value) pairs in [daily_cols] order. *)
Record DailyRow : Type := mkRow {
  row_id : nat; row_person : string; row_log_date : string;
  row_fields : list (string * SqlVal) }.

(** The table: its rows in rowid order and the AUTOINCREMENT counter. *)
Record DailyTable : Type := mkTable {
  rows : list DailyRow; next_id : nat }.

Definition row_matches (person log_date : string) (r : DailyRow) : bool :=
  String.eqb (row_person r) person && String.eqb (row_log_date r) log_date.

(** [data = {c: kwargs.get(c, None) for c in cols}], as column/value pairs. *)
Definition upsert_data (kwargs : list (string * SqlVal)) : list (string * SqlVal) :=
  map (fun c => (c, dict_get c kwargs VNull)) daily_cols.

(** [SELECT id FROM daily WHERE person=? AND log_date=?] then [fetchone()]. *)
Definition select_daily_id (t : DailyTable) (person log_date : string) : option nat :=
  match find (row_matches person log_date) (rows t) with
  | Some r => Some (row_id r)
  | None => None
  end.

Definition upsert_daily (t : DailyTable) (person log_date : string)
  (kwargs : list (string * SqlVal)) : DailyTable :=
  let data := upsert_data kwargs in
  match select_daily_id t person log_date with
  | Some _ =>
      (* UPDATE daily SET <cols>=? WHERE person=? AND log_date=? *)
      mkTable (map (fun r => if row_matches person log_date r
                             then mkRow (row_id r) (row_person r) (row_log_date r) data
                             else r) (rows t))
              (next_id t)
  | None =>
      (* INSERT INTO daily(person, log_date, <cols>) VALUES(...) *)
      mkTable (rows t ++ [mkRow (next_id t) person log_date data]) (S (next_id t))
  end.

(** The schema's [UNIQUE(person, log_date)] constraint. *)
Definition unique_person_date (t : DailyTable) : Prop :=
  NoDup (map (fun r => (row_person r, row_log_date r)) (rows t)).

(** ** [week_summary] (features/insights.py) *)

(** A float as pandas produces it: a number or NaN. *)
Inductive PyFloat : Type :=
| Num (q : Q)
| NaN.

(** A row of the frame: its [date] after [pd.to_datetime(errors="coerce")]
    ([None] is NaT, as a day number otherwise) and its [wellness],
    [protein], [weight] cells ([None] is a missing value). *)
Record LogRec : Type := mkRec {
  r_date : option Z; r_wellness : option Q; r_protein : option Q; r_weight : option Q }.

(** A frame: which of the optional columns it has, and its rows. *)
Record Frame : Type := mkFrame {
  has_wellness : bool; has_protein : bool; has_weight : bool;
  frame_rows : list LogRec }.

Record Summary : Type := mkSummary {
  avg_wellness : option PyFloat; avg_protein : option PyFloat;
  weight_change : option PyFloat }.

(** [dropna(subset=["date"])]. *)
Definition dropna_date (rs : list LogRec) : list (Z * LogRec) :=
  flat_map (fun r => match r_date r with Some k => [(k, r)] | None => [] end) rs.

(** [sort_values("date")]: ascending by date.  Rows with equal dates are
    kept in input order here; numpy's default sort does not promise an
    order for them, and nothing below depends on it. *)
Fixpoint insert_by_date (x : Z * LogRec) (l : list (Z * LogRec)) : list (Z * LogRec) :=
  match l with
  | [] => [x]
  | y :: l' => if (fst x <? fst y)%Z then x :: l else y :: insert_by_date x l'
  end.

Fixpoint sort_by_date (l : list (Z * LogRec)) : list (Z * LogRec) :=
  match l with
  | [] => []
  | x :: l' => insert_by_date x (sort_by_date l')
  end.

(** [tail(n)]. *)
Definition tail_n {A} (n : nat) (l : list A) : list A := skipn (length l - n) l.

Definition last7 (f : Frame) : list LogRec :=
  map snd (tail_n 7 (sort_by_date (dropna_date (frame_rows f)))).

(** The non-missing cells of a column. *)
Definition present (xs : list (option Q)) : list Q :=
  flat_map (fun o => match o with Some q => [q] | None => [] end) xs.

Definition qsum (l : list Q) : Q := fold_right Qplus 0 l.

(** [Series.mean()] (skipna): NaN when no cell is present. *)
Definition series_mean (xs : list (option Q)) : PyFloat :=
  match present xs with
  | [] => NaN
  | vs => Num (qsum vs / inject_Z (Z.of_nat (length vs)))
  end.

(** [Series.iloc[i]] yields the cell; [a - b] on cells. *)
Definition cell_sub (a b : option Q) : PyFloat :=
  match a, b with Some x, Some y => Num (x - y) | _, _ => NaN end.

Definition iloc_last (xs : list (option Q)) : option Q := last xs None.
Definition iloc_first (xs : list (option Q)) : option Q := hd None xs.

Definition week_summary (df : option Frame) : option Summary :=
  match df with
  | None => None                                       (* df is None *)
  | Some f =>
      match frame_rows f with
      | [] => None                                     (* df.empty *)
      | _ =>
          let w := last7 f in
          match w with
          | [] => None                                 (* last7.empty *)
          | _ =>
              let wellness := map r_wellness w in
              let protein := map r_protein w in
              let weight := map r_weight w in
              Some (mkSummary
                (if has_wellness f then Some (series_mean wellness) else None)
                (if has_protein f then Some (series_mean protein) else None)
                (if has_weight f && (2 <=? length (present weight))%nat
                 then Some (cell_sub (iloc_last weight) (iloc_first weight))
                 else None))
          end
      end
  end.

(** ** [DISH_CATEGORIES] and the macros chosen by [meal_logger] (app.py) *)

Definition DISH_CATEGORIES : list (string * list string) := [
  ("Breakfast", ["omelette"; "boiled_eggs_2"; "oats_bowl"; "poha"; "upma"; "idli_sambar"; "dosa_sambar"; "protein_shake"; "banana_milk_shake"]);
  ("Lunch", ["dal_rice"; "rajma_rice"; "chole_rice"; "roti_veg_curry"; "roti_dal"; "egg_curry"; "chicken_curry_rice"; "biryani_chicken"; "paneer_curry_roti"; "tofu_curry_roti"]);
  ("Dinner", ["dal_rice"; "roti_veg_curry"; "roti_dal"; "egg_curry"; "chicken_curry_rice"; "paneer_curry_roti"; "tofu_curry_roti"; "paratha_curd"; "thepla_curd"]);
  ("Snacks", ["dhokla_plate"; "khandvi_plate"; "handvo_slice"; "khakhra_snack"; "sev_snack"; "fafda"; "pav_bhaji"; "vada_pav"; "samosa"; "pizza"; "burger"; "fries"; "curd_bowl"]) ].

(** The dish choices of the meal selectbox:
    [DISH_CATEGORIES.get(meal_type, list(DISH_RECIPES.keys()))]. *)
Definition selectable_dishes (meal_type : string) : list string :=
  dict_get meal_type DISH_CATEGORIES (map fst DISH_RECIPES).

(** The [macros] dict [meal_logger] shows and saves: the override values
    (with [gerd] 0.0) when the override box is ticked, [macros_for_dish]
    otherwise; then [macros["gerd"] = 0.0] when GERD tracking is off. *)
Definition meal_logger_macros (np : res clip_fn) (enable_gerd override : bool)
  (carbs_override protein_override fat_override kcal_override : Q)
  (dish : string) (grams : Q) : res MacroDict :=
  macros <- (if override
             then Ok (mkMacros carbs_override protein_override fat_override kcal_override 0.0)
             else macros_for_dish np dish grams) ;;
  Ok (if enable_gerd then macros
      else mkMacros (carbs_g macros) (protein_g macros) (fat_g macros) (kcal_out macros) 0.0).

(** ** [date.fromordinal] and [date.isoformat] (CPython's datetime) *)

Definition days_in_month_table (m : Z) : Z :=
  match m with
  | 1 => 31 | 2 => 28 | 3 => 31 | 4 => 30 | 5 => 31 | 6 => 30
  | 7 => 31 | 8 => 31 | 9 => 30 | 10 => 31 | 11 => 30 | 12 => 31
  | _ => 0
  end%Z.

(** [_ord2ymd(n)]. *)
Definition ord2ymd (n : Z) : date :=
  let n := (n - 1)%Z in
  let n400 := (n / 146097)%Z in let n := (n mod 146097)%Z in
  let year := (n400 * 400 + 1)%Z in
  let n100 := (n / 36524)%Z in let n := (n mod 36524)%Z in
  let n4 := (n / 1461)%Z in let n := (n mod 1461)%Z in
  let n1 := (n / 365)%Z in let n := (n mod 365)%Z in
  let year := (year + n100 * 100 + n4 * 4 + n1)%Z in
  if (n1 =? 4)%Z || (n100 =? 4)%Z then mkDate (year - 1) 12 31
  else
    let leapyear := (n1 =? 3)%Z && (negb (n4 =? 24)%Z || (n100 =? 3)%Z) in
    let month := Z.shiftr (n + 50) 5 in
    let preceding := (days_before_month_table month
                      + (if (2 <? month)%Z && leapyear then 1 else 0))%Z in
    let '(month, preceding) :=
      if (n <? preceding)%Z
      then let month := (month - 1)%Z in
           (month, (preceding - (days_in_month_table month
                                 + (if (month =? 2)%Z && leapyear then 1 else 0)))%Z)
      else (month, preceding) in
    mkDate year month (n - preceding + 1).

Definition fromordinal (n : Z) : date := ord2ymd n.

Definition digit_char (n : Z) : Ascii.ascii := Ascii.ascii_of_nat (48 + Z.to_nat n).

Fixpoint digits_rev (fuel : nat) (n : Z) : list Ascii.ascii :=
  match fuel with
  | O => []
  | S fuel' =>
      if (n <? 10)%Z then [digit_char n]
      else digit_char (n mod 10) :: digits_rev fuel' (n / 10)
  end.

(** ["%0<w>d" % n] for [n >= 0]. *)
Definition zero_pad (w : nat) (n : Z) : string :=
  let ds := rev (digits_rev 20 n) in
  string_of_list_ascii (repeat "0"%char (w - length ds) ++ ds).

(** [date.isoformat()]: ["%04d-%02d-%02d" % (year, month, day)]. *)
Definition isoformat (d : date) : string :=
  zero_pad 4 (year d) ++ "-" ++ zero_pad 2 (month d) ++ "-" ++ zero_pad 2 (day d).

(** ** The [logs] table: [add_meal_log] and [load_logs] (app.py) *)

Record MealRow : Type := mkMeal {
  m_id : nat; m_person : string; m_log_date : string; m_meal_type : string;
  m_meal_time : string; m_dish : string; m_grams : Q;
  m_carbs_g : Q; m_protein_g : Q; m_fat_g : Q; m_kcal : Q; m_gerd : Q;
  m_notes : string }.

Record LogsTable : Type := mkLogs {
  meal_rows : list MealRow; meal_next_id : nat }.


(** SQLite's default BINARY collation on TEXT. *)
Definition text_ge (a b : string) : bool :=
  match String.compare a b with Lt => false | _ => true end.

(** [ORDER BY log_date DESC, meal_time DESC]: [a] may stand before [b].
    SQLite leaves the order of full ties unspecified; here they keep
    table order. *)
Definition meal_before (a b : MealRow) : bool :=
  match String.compare (m_log_date a) (m_log_date b) with
  | Gt => true
  | Lt => false
  | Eq => text_ge (m_meal_time a) (m_meal_time b)
  end.

Fixpoint insert_meal (x : MealRow) (l : list MealRow) : list MealRow :=
  match l with
  | [] => [x]
  | y :: l' => if meal_before x y then x :: l else y :: insert_meal x l'
  end.

Fixpoint sort_meals (l : list MealRow) : list MealRow :=
  match l with
  | [] => []
  | x :: l' => insert_meal x (sort_meals l')
  end.

(** [load_logs(person, days)] on the day [today]:
    [SELECT * FROM logs WHERE person=? AND log_date>=? ORDER BY ...] with
    [since = (today - timedelta(days=days)).isoformat()]. *)
Definition load_logs (t : LogsTable) (person : string) (today : date) (days : Z)
  : list MealRow :=
  let since := isoformat (fromordinal (toordinal today - days)) in
  sort_meals (filter (fun r => String.eqb (m_person r) person
                               && text_ge (m_log_date r) since) (meal_rows t)).

(** ** [load_daily] (app.py) on the [daily] table *)





(** ** The [goals] table: [set_goal] and [get_goal] (app.py) *)

Record GoalRow : Type := mkGoal {
  g_person : string; g_goal_type : string; g_start_date : string;
  g_start_weight : Q; g_target_weight : Q; g_target_date : string;
  g_kcal_adjust : Q; g_protein_target : Q }.

(** The dict returned by [get_goal]. *)
Record GoalInfo : Type := mkGoalInfo {
  gi_start_date : string; gi_start_weight : Q; gi_target_weight : Q;
  gi_target_date : string; gi_kcal_adjust : Q; gi_protein_target : Q }.

Definition goal_matches (person goal_type : string) (r : GoalRow) : bool :=
  String.eqb (g_person r) person && String.eqb (g_goal_type r) goal_type.

(** [INSERT ... ON CONFLICT(person, goal_type) DO UPDATE SET <every other
    column>=excluded.<column>], run on the day [today]. *)
Definition set_goal (t : list GoalRow) (today : date) (person goal_type : string)
  (start_weight target_weight : Q) (target_date : string)
  (kcal_adjust protein_target : Q) : list GoalRow :=
  let row := mkGoal person goal_type (isoformat today) start_weight target_weight
                    target_date kcal_adjust protein_target in
  if existsb (goal_matches person goal_type) t
  then map (fun r => if goal_matches person goal_type r then row else r) t
  else t ++ [row].

(** [SELECT ... FROM goals WHERE person=? AND goal_type=?] and [fetchone()]. *)
Definition get_goal (t : list GoalRow) (person goal_type : string) : option GoalInfo :=
  match find (goal_matches person goal_type) t with
  | None => None
  | Some r => Some (mkGoalInfo (g_start_date r) (g_start_weight r) (g_target_weight r)
                               (g_target_date r) (g_kcal_adjust r) (g_protein_target r))
  end.

(** ** Schema migration in [init_db] (app.py) *)

(** [ensure_column(table, col, ...)] on the table's column names, as
    [PRAGMA table_info] lists them: [ALTER TABLE ... ADD COLUMN] appends
    the column when it is missing. *)
Definition ensure_column (cols : list string) (col : string) : list string :=
  if existsb (String.eqb col) cols then cols else cols ++ [col].

Definition logs_columns : list string :=
  ["person"; "log_date"; "meal_type"; "meal_time"; "dish"; "grams"; "carbs_g";
   "protein_g"; "fat_g"; "kcal"; "gerd"; "notes"].

Definition daily_columns : list string :=
  ["person"; "log_date"; "weight_kg"; "sleep_hours"; "exercise_min"; "mood"; "stress";
   "gerd_symptom"; "glucose_mgdl"; "period_day"; "period_flow"; "period_symptoms";
   "insulin_units"; "extra_notes"].

(** The columns of the [CREATE TABLE IF NOT EXISTS] statements. *)
Definition logs_schema : list string := "id" :: logs_columns.
Definition daily_schema : list string := "id" :: daily_columns.

(** One table in [init_db]: created with [schema] when absent ([None]),
    then every [ensure_column] call in source order. *)
Definition migrate_table (existing : option (list string)) (schema required : list string)
  : list string :=
  let cols := match existing with Some cols => cols | None => schema end in
  fold_left ensure_column required cols.

(** ** The page script: the module-level statements of app.py *)

(** A module-level statement, reduced to the global names it reads and
    binds and the global functions it calls.  [SSimple loads calls binds]:
    the names in [loads] are looked up (an unbound one raises [NameError]),
    then the functions in [calls] are called in order, then [binds] are
    bound ([import], [def] and assignment).  The statements of app.py that
    read an unbound name read it before making any call. *)
Inductive stmt : Type :=
| SSimple (loads calls binds : list string)
| SWith (loads : list string) (body : stmt)           (* with tabs[i]: body *)
| SIfEq (x lit : string) (s1 s2 : stmt)               (* if x == lit: s1 else: s2 *)
| SSeq (s1 s2 : stmt)
| SSkip.

Definition seq (l : list stmt) : stmt := fold_right SSeq SSkip l.

Fixpoint first_unbound (env : list string) (xs : list string) : option string :=
  match xs with
  | [] => None
  | x :: xs' => if existsb (String.eqb x) env then first_unbound env xs' else Some x
  end.

(** The calls made (in order) and the first exception; [behave f] is what
    calling the global function [f] (or a method of the module [f]) does. *)
Fixpoint run_calls (behave : string -> res unit) (fs : list string)
  : list string * res unit :=
  match fs with
  | [] => ([], Ok tt)
  | f :: fs' =>
      match behave f with
      | Ok _ => let '(c, r) := run_calls behave fs' in (f :: c, r)
      | Raise e => ([f], Raise e)
      end
  end.

(** Running a statement on the set of bound global names: the calls made,
    and the new set of names or the exception that stops the script.  The
    only variable compared, [profile], has the value [choice]. *)
Fixpoint exec (behave : string -> res unit) (choice : string) (s : stmt)
  (env : list string) : list string * res (list string) :=
  match s with
  | SSimple loads calls binds =>
      match first_unbound env loads with
      | Some x => ([], Raise (NameError x))
      | None =>
          let '(c, r) := run_calls behave calls in
          (c, match r with Ok _ => Ok (rev binds ++ env)%list | Raise e => Raise e end)
      end
  | SWith loads body =>
      match first_unbound env loads with
      | Some x => ([], Raise (NameError x))
      | None => exec behave choice body env
      end
  | SIfEq x lit s1 s2 =>
      match first_unbound env [x] with
      | Some y => ([], Raise (NameError y))
      | None => if String.eqb choice lit then exec behave choice s1 env
                else exec behave choice s2 env
      end
  | SSeq s1 s2 =>
      let '(c1, r1) := exec behave choice s1 env in
      match r1 with
      | Ok env' => let '(c2, r2) := exec behave choice s2 env' in ((c1 ++ c2)%list, r2)
      | Raise e => (c1, Raise e)
      end
  | SSkip => ([], Ok env)
  end.

Definition call1 (f : string) : stmt := SSimple [f] [f] [].
Definition def_ (f : string) : stmt := SSimple [] [] [f].

(** One profile's tabs: [header_block(...)], [tabs = st.tabs(...)] and
    [with tabs[i]: <call>] for each tab. *)
Definition profile_page (before_tabs : list stmt) (tab_calls : list string) : stmt :=
  seq ([call1 "header_block"] ++ before_tabs ++ [SSimple ["st"] ["st"] ["tabs"]] ++
       map (fun f => SWith ["tabs"] (call1 f)) tab_calls)%list.

(** Lines 11 to 977 of app.py. *)
Definition app_script : stmt :=
  seq [
    def_ "os"; def_ "sqlite3"; SSimple [] [] ["datetime"; "date"; "timedelta"];
    def_ "px"; def_ "go"; def_ "pd"; def_ "st";
    call1 "st";                                                  (* st.set_page_config *)
    SSimple ["__file__"; "os"; "os"] ["os"; "os"] ["APP_DIR"];
    SSimple ["APP_DIR"; "os"] ["os"] ["DATA_DIR"];
    SSimple ["DATA_DIR"; "os"] ["os"] ["DB_PATH"];
    SSimple ["DATA_DIR"; "os"] ["os"] [];                        (* os.makedirs *)
    def_ "CUSTOM_CSS";
    SSimple ["CUSTOM_CSS"; "st"] ["st"] [];                      (* st.markdown *)
    def_ "db"; def_ "init_db";
    call1 "init_db";
    def_ "upsert_daily"; def_ "add_meal_log"; def_ "load_logs"; def_ "load_daily";
    def_ "set_goal"; def_ "get_goal";
    def_ "ING_DB"; def_ "DISH_RECIPES"; def_ "DISH_CATEGORIES";
    def_ "macros_for_dish"; def_ "clamp01"; def_ "wellness_index_generic";
    def_ "nice_line"; def_ "nice_area_macros"; def_ "header_block";
    def_ "meal_logger"; def_ "daily_logger"; def_ "goal_panel"; def_ "render_graphs";
    call1 "st"; call1 "st"; call1 "st";                          (* title, caption, sidebar *)
    SSimple ["st"] ["st"] ["profile"];                           (* st.sidebar.radio *)
    call1 "st"; call1 "st"; call1 "st"; call1 "st";
    SIfEq "profile" "Sushil"
      (profile_page [] ["dashboard"; "meal_logger"; "daily_logger"; "goal_panel"])
      (SIfEq "profile" "Chido"
        (profile_page [] ["dashboard"; "meal_logger"; "daily_logger"; "goal_panel"])
        (profile_page [call1 "st"]                               (* st.warning *)
           ["dashboard"; "meal_logger"; "daily_logger"; "goal_panel"; "daily_logger"]));
    call1 "st"; call1 "st"
  ].

(** The globals a module has before its first statement runs. *)
Definition module_init_env : list string := ["__name__"; "__file__"; "__builtins__"].

Definition app_run (behave : string -> res unit) (choice : string)
  : list string * res (list string) :=
  exec behave choice app_script module_init_env.

(** ** Auxiliary notions used in the statements *)

(** The recipe's reflux mass [Σ reflux·reference grams] over the
    ingredients found in [ING_DB]: a function of the composition only. *)
Fixpoint gerd_mass (recipe : list (string * Q)) : Q :=
  match recipe with
  | [] => 0
  | (ing, g) :: recipe' =>
      match dict_find ing ING_DB with
      | Some base => gerd base * g
      | None => 0
      end + gerd_mass recipe'
  end.

(** [Σ nutrient·reference grams] over the recipe's ingredients found in
    [ING_DB], for one nutrient column [nut]. *)
Fixpoint nutrient_mass (nut : Ingredient -> Q) (recipe : list (string * Q)) : Q :=
  match recipe with
  | [] => 0
  | (ing, g) :: recipe' =>
      match dict_find ing ING_DB with
      | Some base => nut base * g
      | None => 0
      end + nutrient_mass nut recipe'
  end.

(** The static-table facts checked by evaluation: every recipe is
    non-empty with a positive reference total and only known ingredients,
    all reference weights are non-negative. *)
Definition recipes_wellformed : bool :=
  forallb (fun dr =>
    negb (match snd dr with [] => true | _ => false end)
    && negb (Qle_bool (recipe_sum (snd dr)) 0)
    && forallb (fun iw => match dict_find (fst iw) ING_DB with Some _ => true | None => false end
                          && Qle_bool 0 (snd iw)) (snd dr)) DISH_RECIPES.

(** Every ingredient has non-negative protein, carbs, fat and kcal. *)
Definition ingredients_nonneg : bool :=
  forallb (fun kb => let b := snd kb in
    Qle_bool 0 (protein b) && Qle_bool 0 (carbs b) && Qle_bool 0 (fat b)
    && Qle_bool 0 (kcal b)) ING_DB.

(** [a'] is [a] scaled by [c], component by component. *)
Definition acc_scaled (c : Q) (a a' : Acc) : Prop :=
  a_carbs a' == c * a_carbs a /\ a_protein a' == c * a_protein a /\
  a_fat a' == c * a_fat a /\ a_kcal a' == c * a_kcal a /\
  a_gerd a' == c * a_gerd a.

(** Two dated rows in ascending date order. *)
Definition date_le (x y : Z * LogRec) : Prop := (fst x <= fst y)%Z.

(** [_days_in_month(year, month)] of CPython's datetime: the days the
    [date] constructor accepts in that month. *)
Definition days_in_month (y m : Z) : Z :=
  (days_in_month_table m + (if (m =? 2)%Z && is_leap y then 1 else 0))%Z.

(** Lexicographic combination of two comparisons. *)
Definition lex (c1 c2 : comparison) : comparison :=
  match c1 with Eq => c2 | c => c end.

Definition comparison_eqb (c d : comparison) : bool :=
  match c, d with
  | Eq, Eq | Lt, Lt | Gt, Gt => true
  | _, _ => false
  end.

(** A date the [date] constructor accepts ([MINYEAR = 1], [MAXYEAR = 9999]). *)
Definition valid_date (d : date) : Prop :=
  (1 <= year d <= 9999)%Z /\ (1 <= month d <= 12)%Z /\
  (1 <= day d <= days_in_month (year d) (month d))%Z.

(** The month and day [_ord2ymd] computes from [n], the 0-based day of the
    year, and [leapyear], written as in its last lines. *)
Definition ord2ymd_md (n : Z) (leapyear : bool) : Z * Z :=
  let month := Z.shiftr (n + 50) 5 in
  let preceding := (days_before_month_table month
                    + (if (2 <? month)%Z && leapyear then 1 else 0))%Z in
  let '(month, preceding) :=
    if (n <? preceding)%Z
    then let month := (month - 1)%Z in
         (month, (preceding - (days_in_month_table month
                               + (if (month =? 2)%Z && leapyear then 1 else 0)))%Z)
    else (month, preceding) in
  (month, (n - preceding + 1)%Z).

(** [p] holds at [i, i + 1, ..., i + k - 1]. *)
Fixpoint all_from (k : nat) (i : Z) (p : Z -> bool) : bool :=
  match k with
  | O => true
  | S k' => p i && all_from k' (i + 1)%Z p
  end.

(** * Properties *)

(** ** Lookups *)

Lemma dict_get_find_none {V} (k : string) (d : list (string * V)) (dflt : V) :
  dict_find k d = None -> dict_get k d dflt = dflt.
Proof.
  induction d as [| [k' v] d IH]; simpl; [reflexivity |].
  destruct (String.eqb k' k); [discriminate | exact IH].
Qed.

(** ** The macro accumulation *)

Lemma ref_total_pos (recipe : list (string * Q)) : 0 < ref_total_of recipe.
Proof.
  unfold ref_total_of.
  destruct (Qle_bool (recipe_sum recipe) 0) eqn:E.
  - reflexivity.
  - apply Qnot_le_lt. intro H. apply Qle_bool_iff in H. congruence.
Qed.

Lemma macros_step_scaled (R s s' c : Q) (a a' : Acc) (item : string * Q) :
  s' == c * s -> acc_scaled c a a' ->
  acc_scaled c (macros_step R s a item) (macros_step R s' a' item).
Proof.
  intros Hs (H1 & H2 & H3 & H4 & H5).
  destruct item as [ing g]; unfold macros_step.
  destruct (dict_find ing ING_DB) as [base |]; [| repeat split; assumption].
  unfold acc_scaled; simpl.
  rewrite Hs, H1, H2, H3, H4, H5.
  unfold Qdiv; repeat split; ring.
Qed.

Lemma macros_fold_scaled (R s s' c : Q) (recipe : list (string * Q)) :
  s' == c * s -> forall a a', acc_scaled c a a' ->
  acc_scaled c (fold_left (macros_step R s) recipe a)
               (fold_left (macros_step R s') recipe a').
Proof.
  intros Hs; induction recipe as [| item recipe IH]; intros a a' Ha; simpl.
  - exact Ha.
  - apply IH, macros_step_scaled; assumption.
Qed.

(** Every accumulated total is linear in the serving weight. *)
Lemma macros_loop_scaled (recipe : list (string * Q)) (c g : Q) :
  acc_scaled c (macros_loop recipe g) (macros_loop recipe (c * g)).
Proof.
  unfold macros_loop. apply macros_fold_scaled.
  - unfold Qdiv; ring.
  - unfold acc_scaled, acc0; simpl; repeat split; ring.
Qed.

Lemma macros_fold_gerd (R s : Q) (recipe : list (string * Q)) :
  forall a, a_gerd (fold_left (macros_step R s) recipe a)
            == a_gerd a + s * gerd_mass recipe / R.
Proof.
  induction recipe as [| [ing g] recipe IH]; intros a; cbn [fold_left gerd_mass].
  - unfold Qdiv; ring.
  - rewrite IH. unfold macros_step.
    destruct (dict_find ing ING_DB) as [base |]; cbn [a_gerd]; unfold Qdiv; ring.
Qed.

(** ** C1: the reflux load is not invariant under the serving weight *)

(** C1 (counterexample).  For the omelette, serving weights 125 g and
    250 g do not give the same reflux load: in [app.py] as written no
    field is returned at all (the [np] lookup raises), with numpy bound
    the returned [gerd] is 0.056 against 0.112, and the accumulated
    reflux load before the clip already differs. *)
Lemma macros_gerd_not_invariant_cex :
  ~ (exists r1 r2, macros_for_dish app_np "omelette" 125 = Ok r1 /\
       macros_for_dish app_np "omelette" 250 = Ok r2 /\ gerd_out r1 == gerd_out r2) /\
  ~ (exists r1 r2, macros_for_dish numpy_np "omelette" 125 = Ok r1 /\
       macros_for_dish numpy_np "omelette" 250 = Ok r2 /\ gerd_out r1 == gerd_out r2) /\
  ~ (a_gerd (macros_loop (recipe_of "omelette") 125)
     == a_gerd (macros_loop (recipe_of "omelette") 250)).
Proof.
  split; [| split].
  - intros (r1 & r2 & H1 & _). vm_compute in H1. discriminate H1.
  - intros (r1 & r2 & H1 & H2 & H3).
    vm_compute in H1, H2. injection H1 as <-. injection H2 as <-.
    vm_compute in H3. discriminate H3.
  - vm_compute. discriminate.
Qed.

(** C1 (amended).  For every dish and serving weight [g], the reflux load
    accumulated by [macros_for_dish] before the clip to [-0.3, 1.0] is
    [g * M / (R * R)], where [M] is the recipe's reflux mass and [R] its
    reference total: it depends on the composition and grows linearly
    with [g]. *)
Theorem macros_gerd_linear_in_grams (dish_name : string) (grams : Q) :
  a_gerd (macros_loop (recipe_of dish_name) grams)
  == grams * gerd_mass (recipe_of dish_name)
     / (ref_total_of (recipe_of dish_name) * ref_total_of (recipe_of dish_name)).
Proof.
  unfold macros_loop. rewrite macros_fold_gerd. cbn [acc0 a_gerd].
  unfold Qdiv. rewrite Qinv_mult_distr. ring.
Qed.

(** ** C2: unknown dishes *)

(** C2.  For a dish name absent from [DISH_RECIPES], [macros_for_dish]
    returns all five fields equal to 0 and raises nothing, whatever the
    serving weight and whether or not [np] is bound. *)
Theorem macros_unknown_dish_zero (np : res clip_fn) (dish_name : string) (grams : Q) :
  dict_find dish_name DISH_RECIPES = None ->
  macros_for_dish np dish_name grams = Ok (mkMacros 0 0 0 0 0).
Proof.
  intros H. unfold macros_for_dish, recipe_of.
  rewrite (dict_get_find_none _ _ _ H). reflexivity.
Qed.

Lemma macros_unknown_dish_zero_witness :
  dict_find "pasta" DISH_RECIPES = None /\
  macros_for_dish app_np "pasta" 300 = Ok (mkMacros 0 0 0 0 0).
Proof.
  split; [vm_compute; reflexivity |].
  apply macros_unknown_dish_zero. vm_compute. reflexivity.
Defined.

(** ** C3: nutrient totals are linear in the serving weight *)

(** C3.  For every dish of [DISH_RECIPES] and [g > 0], the pre-rounding
    carbs, protein, fat and kcal totals at [2 * g] are twice those at [g]. *)
Theorem macros_double_grams (dish_name : string) (g : Q) :
  In dish_name (map fst DISH_RECIPES) -> 0 < g ->
  let a1 := macros_loop (recipe_of dish_name) g in
  let a2 := macros_loop (recipe_of dish_name) (2 * g) in
  a_carbs a2 == 2 * a_carbs a1 /\ a_protein a2 == 2 * a_protein a1 /\
  a_fat a2 == 2 * a_fat a1 /\ a_kcal a2 == 2 * a_kcal a1.
Proof.
  intros _ _ a1 a2.
  destruct (macros_loop_scaled (recipe_of dish_name) 2 g) as (H1 & H2 & H3 & H4 & _).
  repeat split; assumption.
Qed.

Lemma macros_double_grams_witness :
  In "omelette" (map fst DISH_RECIPES) /\ 0 < 125 /\
  a_carbs (macros_loop (recipe_of "omelette") (2 * 125))
  == 2 * a_carbs (macros_loop (recipe_of "omelette") 125).
Proof.
  assert (Hin : In "omelette" (map fst DISH_RECIPES)) by (simpl; left; reflexivity).
  assert (Hg : 0 < 125) by reflexivity.
  split; [exact Hin | split; [exact Hg |]].
  apply (macros_double_grams "omelette" 125 Hin Hg).
Defined.

(** ** Rounding bounds *)

Lemma round_half_even_ge_floor (x : Q) : (Qfloor x <= round_half_even x)%Z.
Proof.
  unfold round_half_even.
  destruct (Qcompare _ _); [destruct (Z.even _) |..]; lia.
Qed.

Lemma round_half_even_le (x : Q) (N : Z) :
  x <= inject_Z N -> (round_half_even x <= N)%Z.
Proof.
  intros Hx.
  assert (Hf : (Qfloor x <= N)%Z).
  { rewrite <- (Qfloor_Z N). apply Qfloor_resp_le. exact Hx. }
  assert (Hup : inject_Z (Qfloor x) < x -> (Qfloor x + 1 <= N)%Z).
  { intros Hlt. assert (Qfloor x < N)%Z as HZ; [| lia].
    rewrite Zlt_Qlt. eapply Qlt_le_trans; eassumption. }
  unfold round_half_even.
  destruct (Qcompare (x - inject_Z (Qfloor x)) (1 # 2)) eqn:E.
  - apply Qeq_alt in E.
    destruct (Z.even (Qfloor x)); [exact Hf |].
    apply Hup. lra.
  - exact Hf.
  - apply Qgt_alt in E. apply Hup. lra.
Qed.

Lemma round_half_even_nonneg (x : Q) : 0 <= x -> (0 <= round_half_even x)%Z.
Proof.
  intros Hx. pose proof (round_half_even_ge_floor x).
  pose proof (Qfloor_resp_le 0 x Hx) as H0. change (Qfloor 0) with 0%Z in H0. lia.
Qed.

Lemma py_round1_bounds (x : Q) : 0 <= x -> x <= 100 -> 0 <= py_round x 1 /\ py_round x 1 <= 100.
Proof.
  intros H0 H1. unfold py_round. change (inject_Z (10 ^ Z.of_nat 1)) with 10.
  assert (Hlo := round_half_even_nonneg (x * 10) ltac:(lra)).
  assert (Hhi := round_half_even_le (x * 10) 1000 ltac:(change (inject_Z 1000) with 1000; lra)).
  rewrite Zle_Qle in Hlo, Hhi. change (inject_Z 0) with 0 in Hlo.
  change (inject_Z 1000) with 1000 in Hhi.
  set (z := inject_Z (round_half_even (x * 10))) in *.
  unfold Qdiv. change (/ 10) with (1 # 10). split; lra.
Qed.

Lemma numpy_clip01_bounds (x : Q) : 0 <= numpy_clip x 0 1 /\ numpy_clip x 0 1 <= 1.
Proof.
  unfold numpy_clip. split.
  - apply Q.min_glb; [apply Q.le_max_r | discriminate].
  - apply Q.le_min_r.
Qed.

(** With numpy bound, [wellness_index_generic] returns a score in
    [0, 100] for every input. *)
Lemma wellness_index_numpy_bounded (kcal protein_g sleep_h exercise_min stress_0_10 : Q) :
  exists r, wellness_index_generic numpy_np kcal protein_g sleep_h exercise_min stress_0_10 = Ok r
            /\ 0 <= r /\ r <= 100.
Proof.
  unfold wellness_index_generic, clamp01, numpy_np. cbn [bind].
  eexists; split; [reflexivity |].
  destruct (numpy_clip01_bounds (1 - Qabs (sleep_h - 7.5) / 4.0)).
  destruct (numpy_clip01_bounds (Qmin exercise_min 60 / 60.0)).
  destruct (numpy_clip01_bounds (1 - stress_0_10 / 10.0)).
  destruct (numpy_clip01_bounds (Qmin protein_g 120 / 120.0)).
  destruct (numpy_clip01_bounds (Qmin kcal 3200 / 3200.0)).
  apply py_round1_bounds; lra.
Qed.

(** ** C4: [wellness_index_generic] in [app.py] *)

(** C4 (the code as written).  [clamp01] evaluates [np.clip], and [np] is
    not bound in [app.py]: [wellness_index_generic] raises
    [NameError] on every input instead of returning a score. *)
Theorem wellness_index_raises_name_error
  (kcal protein_g sleep_h exercise_min stress_0_10 : Q) :
  wellness_index_generic app_np kcal protein_g sleep_h exercise_min stress_0_10
  = Raise (NameError "np").
Proof. reflexivity. Qed.

(** ** C5: days left in the goal plan *)

(** C5.  [days_left] is [max(1, (target_date - today).days)]; it is at
    least 1, it is 1 when the target date is on or before today, and
    [per_day] is the true quotient [kg_change / days_left]. *)
Theorem goal_plan_days_left (start_w target_w : Q) (target_d today : date) :
  let p := goal_plan start_w target_w target_d today in
  days_left p = Z.max 1 (date_sub_days target_d today) /\
  (1 <= days_left p)%Z /\
  ((date_sub_days target_d today <= 0)%Z -> days_left p = 1%Z) /\
  per_day p * inject_Z (days_left p) == kg_change p.
Proof.
  intros p. subst p. unfold goal_plan; cbn [days_left per_day kg_change].
  split; [reflexivity | split; [lia | split; [lia |]]].
  rewrite Qmult_comm. apply Qmult_div_r.
  intros H. apply (proj1 (inject_Z_injective _ 0%Z)) in H. lia.
Qed.

Lemma goal_plan_days_left_witness :
  days_left (goal_plan 70 65 (mkDate 2026 10 8) (mkDate 2026 10 18)) = 1%Z /\
  days_left (goal_plan 70 65 (mkDate 2026 10 28) (mkDate 2026 10 18)) = 10%Z.
Proof.
  destruct (goal_plan_days_left 70 65 (mkDate 2026 10 8) (mkDate 2026 10 18))
    as (_ & _ & Hpast & _).
  destruct (goal_plan_days_left 70 65 (mkDate 2026 10 28) (mkDate 2026 10 18))
    as (Hmax & _).
  split.
  - apply Hpast. vm_compute. discriminate.
  - rewrite Hmax. vm_compute. reflexivity.
Defined.

(** ** C8: protein target *)

(** C8.  [protein_target] multiplies the weight by 1.8 for "gain", by 1.6
    for "loss" and by 1.5 for any other goal type, rounded to 1 decimal. *)
Theorem protein_target_table (weight : Q) (goal_type : string) :
  (goal_type = "gain" -> protein_target weight goal_type = py_round (weight * 1.8) 1) /\
  (goal_type = "loss" -> protein_target weight goal_type = py_round (weight * 1.6) 1) /\
  (goal_type <> "gain" -> goal_type <> "loss" ->
     protein_target weight goal_type = py_round (weight * 1.5) 1).
Proof.
  unfold protein_target. split; [| split].
  - intros ->. reflexivity.
  - intros ->. reflexivity.
  - intros Hg Hl.
    destruct (String.eqb_spec goal_type "gain"); [contradiction |].
    destruct (String.eqb_spec goal_type "loss"); [contradiction | reflexivity].
Qed.

Lemma protein_target_table_witness :
  protein_target 70 "gain" = py_round (70 * 1.8) 1 /\
  protein_target 55 "loss" = py_round (55 * 1.6) 1 /\
  protein_target 60 "maintain" = py_round (60 * 1.5) 1.
Proof.
  destruct (protein_target_table 70 "gain") as (Hg & _ & _).
  destruct (protein_target_table 55 "loss") as (_ & Hl & _).
  destruct (protein_target_table 60 "maintain") as (_ & _ & Ho).
  split; [apply Hg; reflexivity | split; [apply Hl; reflexivity |]].
  apply Ho; discriminate.
Defined.

(** ** C10: [daily_weight_change] *)

(** C10.  [daily_weight_change] is 0.0 when [days_left <= 0] and
    [(target_kg - current_kg) / days_left] when [days_left > 0]. *)
Theorem daily_weight_change_cases (target_kg current_kg days_left : Q) :
  (days_left <= 0 -> daily_weight_change target_kg current_kg days_left = 0.0) /\
  (0 < days_left ->
     daily_weight_change target_kg current_kg days_left
     = (target_kg - current_kg) / days_left).
Proof.
  unfold daily_weight_change. split; intros H.
  - apply Qle_bool_iff in H. rewrite H. reflexivity.
  - destruct (Qle_bool days_left 0) eqn:E; [| reflexivity].
    apply Qle_bool_iff in E. exfalso. apply (Qlt_not_le _ _ H E).
Qed.

Lemma daily_weight_change_cases_witness :
  daily_weight_change 65 70 0 = 0.0 /\ daily_weight_change 65 70 10 = (65 - 70) / 10.
Proof.
  destruct (daily_weight_change_cases 65 70 0) as (H0 & _).
  destruct (daily_weight_change_cases 65 70 10) as (_ & H1).
  split; [apply H0; discriminate | apply H1; reflexivity].
Defined.

(** ** C9: [upsert_daily] overwrites the whole row *)

Lemma row_matches_true (person log_date : string) (x : DailyRow) :
  row_matches person log_date x = true <->
  (row_person x, row_log_date x) = (person, log_date).
Proof.
  unfold row_matches. rewrite andb_true_iff, !String.eqb_eq.
  split; [intros [-> ->]; reflexivity | intros H; injection H; tauto].
Qed.

Lemma filter_all_false {A} (f : A -> bool) (l : list A) :
  (forall x, In x l -> f x = false) -> filter f l = [].
Proof.
  induction l as [| a l IH]; intros H; simpl; [reflexivity |].
  rewrite (H a (or_introl eq_refl)). apply IH. intros x Hx. apply H. right. exact Hx.
Qed.

Lemma filter_matches_unique (person log_date : string) (l : list DailyRow) (r : DailyRow) :
  NoDup (map (fun x => (row_person x, row_log_date x)) l) -> In r l ->
  (row_person r, row_log_date r) = (person, log_date) ->
  filter (row_matches person log_date) l = [r].
Proof.
  induction l as [| a l IH]; intros Hnd Hin Hkey; [destruct Hin |].
  simpl in Hnd. apply NoDup_cons_iff in Hnd as [Hnot Hnd].
  simpl. destruct Hin as [<- | Hin].
  - rewrite (proj2 (row_matches_true _ _ _) Hkey). f_equal.
    apply filter_all_false. intros x Hx.
    destruct (row_matches person log_date x) eqn:E; [| reflexivity].
    exfalso. apply Hnot. apply row_matches_true in E. rewrite Hkey, <- E.
    apply (in_map (fun y => (row_person y, row_log_date y))). exact Hx.
  - destruct (row_matches person log_date a) eqn:E.
    + exfalso. apply Hnot. apply row_matches_true in E. rewrite E, <- Hkey.
      apply (in_map (fun y => (row_person y, row_log_date y))). exact Hin.
    + apply IH; assumption.
Qed.

Lemma upsert_select_some (t : DailyTable) (person log_date : string) (r : DailyRow) :
  In r (rows t) -> (row_person r, row_log_date r) = (person, log_date) ->
  exists i, select_daily_id t person log_date = Some i.
Proof.
  intros Hin Hkey. unfold select_daily_id.
  destruct (find (row_matches person log_date) (rows t)) as [x |] eqn:E; [eauto |].
  exfalso. pose proof (find_none _ _ E r Hin) as Hf.
  rewrite (proj2 (row_matches_true _ _ _) Hkey) in Hf. discriminate.
Qed.

(** C9.  If the table (under its [UNIQUE(person, log_date)] constraint)
    already has a row for the pair, [upsert_daily] leaves exactly one row
    for it, with the same [id], [person] and [log_date] and every optional
    column set to the supplied keyword value or to NULL when it was not
    supplied; all other rows and the id counter are unchanged. *)
Theorem upsert_daily_overwrites (t : DailyTable) (person log_date : string)
  (kwargs : list (string * SqlVal)) (r : DailyRow) :
  unique_person_date t -> In r (rows t) ->
  row_person r = person -> row_log_date r = log_date ->
  let t' := upsert_daily t person log_date kwargs in
  filter (row_matches person log_date) (rows t')
    = [mkRow (row_id r) person log_date
             (map (fun c => (c, dict_get c kwargs VNull)) daily_cols)] /\
  filter (fun x => negb (row_matches person log_date x)) (rows t')
    = filter (fun x => negb (row_matches person log_date x)) (rows t) /\
  next_id t' = next_id t.
Proof.
  intros Hu Hin Hp Hd t'.
  assert (Hkey : (row_person r, row_log_date r) = (person, log_date)) by congruence.
  destruct (upsert_select_some t person log_date r Hin Hkey) as [i Hi].
  subst t'. unfold upsert_daily. rewrite Hi. cbn [rows next_id].
  set (upd := fun x => if row_matches person log_date x
                       then mkRow (row_id x) (row_person x) (row_log_date x) (upsert_data kwargs)
                       else x).
  assert (Hupd : forall x, row_matches person log_date (upd x) = row_matches person log_date x).
  { intros x. unfold upd. destruct (row_matches person log_date x) eqn:E; exact E. }
  split; [| split; [| reflexivity]].
  - assert (Hmap : forall l, filter (row_matches person log_date) (map upd l)
                             = map upd (filter (row_matches person log_date) l)).
    { induction l as [| a l IH]; simpl; [reflexivity |].
      rewrite Hupd. destruct (row_matches person log_date a); simpl; rewrite IH; reflexivity. }
    rewrite Hmap, (filter_matches_unique person log_date (rows t) r Hu Hin Hkey).
    simpl. unfold upd. rewrite (proj2 (row_matches_true _ _ _) Hkey), Hp, Hd.
    reflexivity.
  - clear Hin Hi Hu. induction (rows t) as [| a l IH]; simpl; [reflexivity |].
    rewrite Hupd. destruct (row_matches person log_date a) eqn:E; simpl.
    + exact IH.
    + unfold upd at 1. rewrite E. f_equal. exact IH.
Qed.

Definition sample_daily : DailyTable :=
  mkTable [mkRow 1 "Sushil" "2026-10-17" [("weight_kg", VReal 48); ("mood", VInt 6)];
           mkRow 2 "Chido" "2026-10-17" [("weight_kg", VReal 55)]] 3.

Lemma upsert_daily_overwrites_witness :
  unique_person_date sample_daily /\
  filter (row_matches "Sushil" "2026-10-17")
    (rows (upsert_daily sample_daily "Sushil" "2026-10-17" [("stress", VInt 4)]))
  = [mkRow 1 "Sushil" "2026-10-17"
       (map (fun c => (c, dict_get c [("stress", VInt 4)] VNull)) daily_cols)].
Proof.
  assert (Hu : unique_person_date sample_daily).
  { unfold unique_person_date, sample_daily; simpl.
    constructor; [| constructor; [intros [] | constructor]].
    intros [H | []]. discriminate H. }
  split; [exact Hu |].
  refine (proj1 (upsert_daily_overwrites sample_daily "Sushil" "2026-10-17"
                   [("stress", VInt 4)]
                   (mkRow 1 "Sushil" "2026-10-17" [("weight_kg", VReal 48); ("mood", VInt 6)])
                   Hu _ eq_refl eq_refl)).
  simpl. left. reflexivity.
Defined.

(** ** C6, C7: [week_summary] *)

Lemma insert_by_date_length (x : Z * LogRec) (l : list (Z * LogRec)) :
  length (insert_by_date x l) = S (length l).
Proof.
  induction l as [| y l IH]; simpl; [reflexivity |].
  destruct (fst x <? fst y)%Z; simpl; [reflexivity | rewrite IH; reflexivity].
Qed.

Lemma sort_by_date_length (l : list (Z * LogRec)) :
  length (sort_by_date l) = length l.
Proof.
  induction l as [| x l IH]; simpl; [reflexivity |].
  rewrite insert_by_date_length, IH. reflexivity.
Qed.

Lemma last7_length (f : Frame) :
  length (last7 f) = Nat.min 7 (length (dropna_date (frame_rows f))).
Proof.
  unfold last7, tail_n. rewrite length_map, length_skipn, sort_by_date_length. lia.
Qed.

Lemma dropna_date_nonempty (f : Frame) :
  (exists r, In r (frame_rows f) /\ r_date r <> None) ->
  (0 < length (dropna_date (frame_rows f)))%nat.
Proof.
  intros (r & Hin & Hd).
  destruct (r_date r) as [k |] eqn:E; [| contradiction].
  assert (Hk : In (k, r) (dropna_date (frame_rows f))).
  { unfold dropna_date. apply in_flat_map. exists r. rewrite E. split; [exact Hin | left; reflexivity]. }
  destruct (dropna_date (frame_rows f)); [destruct Hk | simpl; lia].
Qed.

(** C6 (counterexample).  A frame with a [wellness] column whose only
    dated record has no wellness value: [avg_wellness] is NaN, not null. *)
Lemma week_summary_all_missing_cex :
  let f := mkFrame true false false [mkRec (Some 1%Z) None None None] in
  (forall r, In r (last7 f) -> r_wellness r = None) /\
  week_summary (Some f) = Some (mkSummary (Some NaN) None None).
Proof.
  split.
  - intros r Hr. vm_compute in Hr. destruct Hr as [<- | []]. reflexivity.
  - vm_compute. reflexivity.
Qed.

(** C6 (amended).  When the frame has a record with a parseable date,
    [week_summary] returns a summary; its window [last7] holds
    [min(7, #dated records)] records; [avg_wellness] (resp. [avg_protein])
    is null when the frame has no such column, NaN when no record of the
    window carries a value, and otherwise the arithmetic mean of the values
    present in the window. *)
Theorem week_summary_averages (f : Frame) :
  (exists r, In r (frame_rows f) /\ r_date r <> None) ->
  length (last7 f) = Nat.min 7 (length (dropna_date (frame_rows f))) /\
  (0 < length (last7 f))%nat /\
  exists s, week_summary (Some f) = Some s /\
    avg_wellness s =
      (if has_wellness f then
         Some (match present (map r_wellness (last7 f)) with
               | [] => NaN
               | vs => Num (qsum vs / inject_Z (Z.of_nat (length vs)))
               end)
       else None) /\
    avg_protein s =
      (if has_protein f then
         Some (match present (map r_protein (last7 f)) with
               | [] => NaN
               | vs => Num (qsum vs / inject_Z (Z.of_nat (length vs)))
               end)
       else None).
Proof.
  intros Hex.
  pose proof (dropna_date_nonempty f Hex) as Hpos.
  pose proof (last7_length f) as Hlen.
  assert (H7 : (0 < length (last7 f))%nat) by lia.
  split; [exact Hlen | split; [exact H7 |]].
  unfold week_summary.
  destruct (frame_rows f) as [| r0 rs] eqn:Erows.
  { destruct Hex as (r & [] & _). }
  destruct (last7 f) as [| w0 ws] eqn:Ew; [simpl in H7; lia |].
  eexists; split; [reflexivity |]. split; reflexivity.
Qed.

Definition sample_week : Frame :=
  mkFrame true true false
    [mkRec (Some 2%Z) (Some 70) None None; mkRec None (Some 10) (Some 10) None;
     mkRec (Some 1%Z) (Some 60) (Some 90) None].

Lemma week_summary_averages_witness :
  (exists r, In r (frame_rows sample_week) /\ r_date r <> None) /\
  week_summary (Some sample_week) = Some (mkSummary (Some (Num (130 # 2))) (Some (Num 90)) None).
Proof.
  assert (Hex : exists r, In r (frame_rows sample_week) /\ r_date r <> None).
  { exists (mkRec (Some 2%Z) (Some 70) None None). split; [left; reflexivity | discriminate]. }
  split; [exact Hex |].
  destruct (week_summary_averages sample_week Hex) as (_ & _ & s & Hs & Hw & Hp).
  rewrite Hs. destruct s as [aw ap wc]. cbn [avg_wellness avg_protein] in Hw, Hp.
  vm_compute in Hw, Hp. subst aw ap.
  vm_compute in Hs. injection Hs as <-. reflexivity.
Defined.

(** C7 (the code as written).  With weights [null, 70, 71] on three
    consecutive days the window holds 2 weight observations, yet
    [weight_change] is NaN: [iloc[0]] reads the first row's missing
    weight instead of the first observation (70), so the result is not
    [71 - 70]. *)
Theorem week_summary_weight_change_first_missing :
  let f := mkFrame false false true
             [mkRec (Some 1%Z) None None None; mkRec (Some 2%Z) None None (Some 70);
              mkRec (Some 3%Z) None None (Some 71)] in
  present (map r_weight (last7 f)) = [70; 71] /\
  week_summary (Some f) = Some (mkSummary None None (Some NaN)).
Proof. split; vm_compute; reflexivity. Qed.

(** * Further properties of the code *)

(** ** Table lookups and the static tables *)

Lemma dict_find_in {V} (k : string) (d : list (string * V)) (v : V) :
  dict_find k d = Some v -> In (k, v) d.
Proof.
  induction d as [| [k' v'] d IH]; simpl; [discriminate |].
  destruct (String.eqb_spec k' k) as [-> | _].
  - intros H. injection H as <-. left. reflexivity.
  - intros H. right. exact (IH H).
Qed.

Lemma dict_get_in_key {V} (k : string) (d : list (string * V)) (dflt : V) :
  In k (map fst d) -> In (k, dict_get k d dflt) d.
Proof.
  induction d as [| [k' v'] d IH]; simpl; [intros [] |].
  intros Hk. destruct (String.eqb_spec k' k) as [-> | Hne].
  - left. reflexivity.
  - right. apply IH. destruct Hk as [-> | Hk]; [contradiction | exact Hk].
Qed.

Lemma dict_get_value_in {V} (k : string) (d : list (string * V)) (dflt : V) :
  In (dict_get k d dflt) (dflt :: map snd d).
Proof.
  induction d as [| [k' v'] d IH]; simpl; [left; reflexivity |].
  destruct (String.eqb k' k); [right; left; reflexivity |].
  destruct IH as [H | H]; [left; exact H | right; right; exact H].
Qed.

Lemma recipes_wf_in (d : string) (r : list (string * Q)) :
  In (d, r) DISH_RECIPES ->
  r <> [] /\ 0 < recipe_sum r /\
  forall ing w, In (ing, w) r -> (exists b, dict_find ing ING_DB = Some b) /\ 0 <= w.
Proof.
  intros Hin.
  assert (Hc : recipes_wellformed = true) by (vm_compute; reflexivity).
  unfold recipes_wellformed in Hc. rewrite forallb_forall in Hc.
  specialize (Hc _ Hin). cbn [snd] in Hc.
  apply andb_true_iff in Hc as [Hc Hall]. apply andb_true_iff in Hc as [Hne Hpos].
  split; [| split].
  - destruct r; [discriminate | discriminate].
  - apply negb_true_iff in Hpos. apply Qnot_le_lt. intros H.
    apply Qle_bool_iff in H. congruence.
  - intros ing w Hiw. rewrite forallb_forall in Hall. specialize (Hall _ Hiw).
    cbn [fst snd] in Hall. apply andb_true_iff in Hall as [Hf Hw].
    split; [| apply Qle_bool_iff; exact Hw].
    destruct (dict_find ing ING_DB) as [b |]; [exists b; reflexivity | discriminate].
Qed.

Lemma ingredient_nonneg (ing : string) (b : Ingredient) :
  dict_find ing ING_DB = Some b ->
  0 <= protein b /\ 0 <= carbs b /\ 0 <= fat b /\ 0 <= kcal b.
Proof.
  intros H. apply dict_find_in in H.
  assert (Hc : ingredients_nonneg = true) by (vm_compute; reflexivity).
  unfold ingredients_nonneg in Hc. rewrite forallb_forall in Hc.
  specialize (Hc _ H). cbn [snd] in Hc.
  rewrite !andb_true_iff, !Qle_bool_iff in Hc. tauto.
Qed.

Lemma recipe_of_table_or_empty (d : string) :
  recipe_of d = [] \/ exists d', In (d', recipe_of d) DISH_RECIPES.
Proof.
  unfold recipe_of. destruct (dict_get_value_in d DISH_RECIPES []) as [H | H].
  - left. symmetry. exact H.
  - right. apply in_map_iff in H as ([d' r] & Hr & Hin). cbn in Hr. subst r.
    exists d'. exact Hin.
Qed.

Lemma recipe_of_known (d : string) :
  In d (map fst DISH_RECIPES) -> recipe_of d <> [].
Proof.
  intros H. apply (dict_get_in_key d DISH_RECIPES []) in H.
  exact (proj1 (recipes_wf_in _ _ H)).
Qed.

(** X1.  The static tables are well formed: every recipe of
    [DISH_RECIPES] is non-empty, its reference total is positive (so the
    [ref_total <= 0] fallback never applies) and every ingredient it
    names is in [ING_DB] (so no ingredient is skipped). *)
Theorem dish_recipes_wellformed (d : string) (r : list (string * Q)) :
  In (d, r) DISH_RECIPES ->
  r <> [] /\ 0 < recipe_sum r /\ ref_total_of r = recipe_sum r /\
  forall ing w, In (ing, w) r -> exists b, dict_find ing ING_DB = Some b.
Proof.
  intros Hin. destruct (recipes_wf_in d r Hin) as (Hne & Hpos & Hall).
  split; [exact Hne | split; [exact Hpos | split]].
  - unfold ref_total_of. destruct (Qle_bool (recipe_sum r) 0) eqn:E; [| reflexivity].
    apply Qle_bool_iff in E. exfalso. exact (Qlt_not_le _ _ Hpos E).
  - intros ing w H. exact (proj1 (Hall ing w H)).
Qed.

Lemma dish_recipes_wellformed_witness :
  In ("omelette", [("egg_whole", 120); ("oil", 5)]) DISH_RECIPES /\
  ref_total_of [("egg_whole", 120); ("oil", 5)] = recipe_sum [("egg_whole", 120); ("oil", 5)].
Proof.
  assert (H : In ("omelette", [("egg_whole", 120); ("oil", 5)]) DISH_RECIPES)
    by (simpl; left; reflexivity).
  split; [exact H |].
  exact (proj1 (proj2 (proj2 (dish_recipes_wellformed _ _ H)))).
Defined.

(** ** The macro totals *)

Lemma macros_fold_nutrients (R s : Q) (recipe : list (string * Q)) :
  forall a,
  let a' := fold_left (macros_step R s) recipe a in
  a_carbs a' == a_carbs a + s * nutrient_mass carbs recipe / 100 /\
  a_protein a' == a_protein a + s * nutrient_mass protein recipe / 100 /\
  a_fat a' == a_fat a + s * nutrient_mass fat recipe / 100 /\
  a_kcal a' == a_kcal a + s * nutrient_mass kcal recipe / 100.
Proof.
  induction recipe as [| [ing g] recipe IH]; intros a a'; subst a';
    cbn [fold_left nutrient_mass].
  - unfold Qdiv; repeat split; ring.
  - destruct (IH (macros_step R s a (ing, g))) as (H1 & H2 & H3 & H4).
    rewrite H1, H2, H3, H4. unfold macros_step.
    destruct (dict_find ing ING_DB) as [base |];
      cbn [a_carbs a_protein a_fat a_kcal]; unfold Qdiv; repeat split; ring.
Qed.

(** X2.  For every recipe and serving weight [g], each pre-rounding total
    of [macros_for_dish] is [g / R] times the recipe's nutrient content
    [Σ nutrient·grams / 100], [R] being the reference total: the totals
    are the recipe's nutrients per reference gram, times [g]. *)
Theorem macros_loop_closed_form (recipe : list (string * Q)) (grams : Q) :
  let R := ref_total_of recipe in
  let a := macros_loop recipe grams in
  a_carbs a == grams * nutrient_mass carbs recipe / (100 * R) /\
  a_protein a == grams * nutrient_mass protein recipe / (100 * R) /\
  a_fat a == grams * nutrient_mass fat recipe / (100 * R) /\
  a_kcal a == grams * nutrient_mass kcal recipe / (100 * R).
Proof.
  intros R a. subst a. unfold macros_loop. fold R.
  destruct (macros_fold_nutrients R (grams / R) recipe acc0) as (H1 & H2 & H3 & H4).
  rewrite H1, H2, H3, H4. cbn [acc0 a_carbs a_protein a_fat a_kcal].
  unfold Qdiv. rewrite !Qinv_mult_distr. repeat split; ring.
Qed.

Lemma macros_fold_nonneg (R s : Q) (recipe : list (string * Q)) :
  0 < R -> 0 <= s -> (forall ing w, In (ing, w) recipe -> 0 <= w) ->
  forall a, 0 <= a_carbs a -> 0 <= a_protein a -> 0 <= a_fat a -> 0 <= a_kcal a ->
  let a' := fold_left (macros_step R s) recipe a in
  0 <= a_carbs a' /\ 0 <= a_protein a' /\ 0 <= a_fat a' /\ 0 <= a_kcal a'.
Proof.
  intros HR Hs; induction recipe as [| [ing g] recipe IH]; intros Hw a H1 H2 H3 H4;
    cbn [fold_left]; [tauto |].
  apply IH; [intros i w Hi; apply (Hw i w); right; exact Hi |..];
  unfold macros_step; destruct (dict_find ing ING_DB) as [base |] eqn:E;
    cbn [a_carbs a_protein a_fat a_kcal]; try assumption;
  destruct (ingredient_nonneg _ _ E) as (Bp & Bc & Bf & Bk);
  assert (Hg : 0 <= g) by (apply (Hw ing g); left; reflexivity);
  assert (Hfac : 0 <= g * s / 100)
    by (unfold Qdiv; apply Qmult_le_0_compat; [apply Qmult_le_0_compat; assumption | discriminate]);
  [pose proof (Qmult_le_0_compat _ _ Bc Hfac) | pose proof (Qmult_le_0_compat _ _ Bp Hfac)
  | pose proof (Qmult_le_0_compat _ _ Bf Hfac) | pose proof (Qmult_le_0_compat _ _ Bk Hfac)];
  lra.
Qed.

Lemma py_round_scale_pos (n : nat) : 0 < inject_Z (10 ^ Z.of_nat n).
Proof.
  assert (H : (0 < 10 ^ Z.of_nat n)%Z) by (apply Z.pow_pos_nonneg; lia).
  rewrite Zlt_Qlt in H. exact H.
Qed.

Lemma py_round_nonneg (x : Q) (n : nat) : 0 <= x -> 0 <= py_round x n.
Proof.
  intros Hx. unfold py_round.
  pose proof (py_round_scale_pos n) as Hp.
  assert (Hz : 0 <= inject_Z (round_half_even (x * inject_Z (10 ^ Z.of_nat n)))).
  { assert (H : (0 <= round_half_even (x * inject_Z (10 ^ Z.of_nat n)))%Z).
    { apply round_half_even_nonneg.
      apply Qmult_le_0_compat; [exact Hx | apply Qlt_le_weak; exact Hp]. }
    rewrite Zle_Qle in H. exact H. }
  unfold Qdiv. apply Qmult_le_0_compat; [exact Hz |].
  apply Qinv_le_0_compat. apply Qlt_le_weak. exact Hp.
Qed.

(** X3.  With numpy bound, [macros_for_dish] never returns a negative
    carbs, protein, fat or kcal value for a non-negative serving weight. *)
Theorem macros_for_dish_nonneg (dish_name : string) (grams : Q) (r : MacroDict) :
  0 <= grams -> macros_for_dish numpy_np dish_name grams = Ok r ->
  0 <= carbs_g r /\ 0 <= protein_g r /\ 0 <= fat_g r /\ 0 <= kcal_out r.
Proof.
  intros Hg. unfold macros_for_dish.
  destruct (recipe_of_table_or_empty dish_name) as [E | (d' & Hin)].
  { rewrite E. intros H. injection H as <-. cbn. repeat split; discriminate. }
  destruct (recipes_wf_in _ _ Hin) as (Hne & _ & Hall).
  destruct (recipe_of dish_name) as [| it rest] eqn:E; [contradiction |].
  rewrite <- E. cbn [bind numpy_np]. intros H. injection H as <-.
  cbn [carbs_g protein_g fat_g kcal_out].
  assert (HR := ref_total_pos (recipe_of dish_name)).
  assert (Hs : 0 <= grams / ref_total_of (recipe_of dish_name)).
  { unfold Qdiv. apply Qmult_le_0_compat; [exact Hg |].
    apply Qinv_le_0_compat, Qlt_le_weak, HR. }
  assert (Hw : forall ing w, In (ing, w) (recipe_of dish_name) -> 0 <= w).
  { intros ing w Hi. rewrite E in Hi. exact (proj2 (Hall ing w Hi)). }
  destruct (macros_fold_nonneg _ _ _ HR Hs Hw acc0 (Qle_refl 0) (Qle_refl 0)
              (Qle_refl 0) (Qle_refl 0)) as (H1 & H2 & H3 & H4).
  unfold macros_loop.
  repeat split; apply py_round_nonneg; assumption.
Qed.

Lemma macros_for_dish_nonneg_witness :
  0 <= 250 /\
  match macros_for_dish numpy_np "omelette" 250 with
  | Ok r => 0 <= carbs_g r /\ 0 <= protein_g r /\ 0 <= fat_g r /\ 0 <= kcal_out r
  | Raise _ => False
  end.
Proof.
  assert (Hg : 0 <= 250) by discriminate.
  split; [exact Hg |].
  destruct (macros_for_dish numpy_np "omelette" 250) as [r | e] eqn:E.
  - exact (macros_for_dish_nonneg "omelette" 250 r Hg E).
  - vm_compute in E. discriminate E.
Defined.

Lemma numpy_clip_range (x lo hi : Q) :
  lo <= hi -> lo <= numpy_clip x lo hi /\ numpy_clip x lo hi <= hi.
Proof.
  intros H. unfold numpy_clip. split.
  - apply Q.min_glb; [apply Q.le_max_r | exact H].
  - apply Q.le_min_r.
Qed.

(** X4.  With numpy bound, the [gerd] value returned by [macros_for_dish]
    always lies in [-0.3, 1.0], for every dish name and serving weight. *)
Theorem macros_for_dish_gerd_range (dish_name : string) (grams : Q) (r : MacroDict) :
  macros_for_dish numpy_np dish_name grams = Ok r -> -0.3 <= gerd_out r /\ gerd_out r <= 1.
Proof.
  unfold macros_for_dish. destruct (recipe_of dish_name) as [| it rest].
  - intros H. injection H as <-. cbn. split; discriminate.
  - cbn [bind numpy_np]. intros H. injection H as <-. cbn [gerd_out].
    apply numpy_clip_range. discriminate.
Qed.

Lemma macros_for_dish_gerd_range_witness :
  match macros_for_dish numpy_np "fries" 2500 with
  | Ok r => -0.3 <= gerd_out r /\ gerd_out r <= 1
  | Raise _ => False
  end.
Proof.
  destruct (macros_for_dish numpy_np "fries" 2500) as [r | e] eqn:E.
  - exact (macros_for_dish_gerd_range "fries" 2500 r E).
  - vm_compute in E. discriminate E.
Defined.

(** ** Rounding accuracy *)

Lemma round_half_even_close (y : Q) :
  y - (1 # 2) <= inject_Z (round_half_even y) /\ inject_Z (round_half_even y) <= y + (1 # 2).
Proof.
  pose proof (Qfloor_le y) as Hlo. pose proof (Qlt_floor y) as Hhi.
  rewrite inject_Z_plus in Hhi. change (inject_Z 1) with 1 in Hhi.
  unfold round_half_even.
  destruct (Qcompare (y - inject_Z (Qfloor y)) (1 # 2)) eqn:E.
  - apply Qeq_alt in E.
    destruct (Z.even (Qfloor y)); [| rewrite inject_Z_plus; change (inject_Z 1) with 1];
      split; lra.
  - apply Qlt_alt in E. split; lra.
  - apply Qgt_alt in E. rewrite inject_Z_plus; change (inject_Z 1) with 1. split; lra.
Qed.

Lemma py_round1_close (x : Q) : x - (1 # 20) <= py_round x 1 /\ py_round x 1 <= x + (1 # 20).
Proof.
  unfold py_round. change (inject_Z (10 ^ Z.of_nat 1)) with 10.
  destruct (round_half_even_close (x * 10)) as [H1 H2].
  set (z := inject_Z (round_half_even (x * 10))) in *.
  unfold Qdiv. change (/ 10) with (1 # 10). split; lra.
Qed.

Lemma py_round0_close (x : Q) : x - (1 # 2) <= py_round x 0 /\ py_round x 0 <= x + (1 # 2).
Proof.
  unfold py_round. change (inject_Z (10 ^ Z.of_nat 0)) with 1.
  destruct (round_half_even_close (x * 1)) as [H1 H2].
  set (z := inject_Z (round_half_even (x * 1))) in *.
  unfold Qdiv. change (/ 1) with 1. split; lra.
Qed.

(** X5.  With numpy bound, the carbs, protein and fat returned by
    [macros_for_dish] are within 0.05 of the exact totals, and kcal is
    within 0.5 of the exact total. *)
Theorem macros_for_dish_rounding (dish_name : string) (grams : Q) (r : MacroDict) :
  macros_for_dish numpy_np dish_name grams = Ok r ->
  let a := macros_loop (recipe_of dish_name) grams in
  a_carbs a - (1 # 20) <= carbs_g r /\ carbs_g r <= a_carbs a + (1 # 20) /\
  a_protein a - (1 # 20) <= protein_g r /\ protein_g r <= a_protein a + (1 # 20) /\
  a_fat a - (1 # 20) <= fat_g r /\ fat_g r <= a_fat a + (1 # 20) /\
  a_kcal a - (1 # 2) <= kcal_out r /\ kcal_out r <= a_kcal a + (1 # 2).
Proof.
  intros H; cbv zeta. unfold macros_for_dish in H.
  destruct (recipe_of dish_name) as [| it rest].
  - injection H as <-. unfold macros_loop; cbn [fold_left acc0 a_carbs a_protein a_fat a_kcal
      carbs_g protein_g fat_g kcal_out macros_zero]. repeat split; lra.
  - cbn [bind numpy_np] in H. injection H as <-. cbn [carbs_g protein_g fat_g kcal_out].
    destruct (py_round1_close (a_carbs (macros_loop (it :: rest) grams))).
    destruct (py_round1_close (a_protein (macros_loop (it :: rest) grams))).
    destruct (py_round1_close (a_fat (macros_loop (it :: rest) grams))).
    destruct (py_round0_close (a_kcal (macros_loop (it :: rest) grams))).
    repeat split; assumption.
Qed.

Lemma macros_for_dish_rounding_witness :
  match macros_for_dish numpy_np "oats_bowl" 333 with
  | Ok r => a_kcal (macros_loop (recipe_of "oats_bowl") 333) - (1 # 2) <= kcal_out r
  | Raise _ => False
  end.
Proof.
  destruct (macros_for_dish numpy_np "oats_bowl" 333) as [r | e] eqn:E.
  - exact (proj1 (proj2 (proj2 (proj2 (proj2 (proj2 (proj2
             (macros_for_dish_rounding "oats_bowl" 333 r E)))))))).
  - vm_compute in E. discriminate E.
Defined.

(** ** [app.py] as written: the missing numpy import *)

(** X6.  In [app.py] as written, [macros_for_dish] raises
    [NameError: name 'np' is not defined] for every dish of
    [DISH_RECIPES] and every serving weight. *)
Theorem macros_for_dish_known_raises (dish_name : string) (grams : Q) :
  In dish_name (map fst DISH_RECIPES) ->
  macros_for_dish app_np dish_name grams = Raise (NameError "np").
Proof.
  intros H. apply recipe_of_known in H. unfold macros_for_dish.
  destruct (recipe_of dish_name); [contradiction | reflexivity].
Qed.

Lemma macros_for_dish_known_raises_witness :
  In "dal_rice" (map fst DISH_RECIPES) /\
  macros_for_dish app_np "dal_rice" 300 = Raise (NameError "np").
Proof.
  assert (H : In "dal_rice" (map fst DISH_RECIPES)) by (vm_compute; tauto).
  split; [exact H | exact (macros_for_dish_known_raises "dal_rice" 300 H)].
Defined.

Lemma selectable_in_recipes (meal_type dish : string) :
  In dish (selectable_dishes meal_type) -> In dish (map fst DISH_RECIPES).
Proof.
  intros H.
  assert (Hc : forallb (fun l => forallb (fun d => existsb (String.eqb d) (map fst DISH_RECIPES)) l)
                 (map fst DISH_RECIPES :: map snd DISH_CATEGORIES) = true)
    by (vm_compute; reflexivity).
  rewrite forallb_forall in Hc.
  specialize (Hc _ (dict_get_value_in meal_type DISH_CATEGORIES (map fst DISH_RECIPES))).
  rewrite forallb_forall in Hc. specialize (Hc dish H).
  apply existsb_exists in Hc as (d & Hd & Heq). apply String.eqb_eq in Heq. subst d. exact Hd.
Qed.

(** X7.  The macros of [meal_logger]: every dish the selectbox offers (for
    any meal type) is a dish of [DISH_RECIPES], so without the override
    [app.py] as written raises [NameError] for it; with the override the
    entered values are used with [gerd] 0.0 and nothing is raised; with
    GERD tracking off the saved [gerd] is always 0.0. *)
Theorem meal_logger_macros_paths (np : res clip_fn) (meal_type dish : string) (enable_gerd : bool)
  (co po fo ko grams : Q) :
  (In dish (selectable_dishes meal_type) ->
     In dish (map fst DISH_RECIPES) /\
     meal_logger_macros app_np enable_gerd false co po fo ko dish grams = Raise (NameError "np")) /\
  meal_logger_macros np enable_gerd true co po fo ko dish grams = Ok (mkMacros co po fo ko 0.0) /\
  (forall override r, meal_logger_macros np false override co po fo ko dish grams = Ok r ->
     gerd_out r = 0.0).
Proof.
  split; [| split].
  - intros H. pose proof (selectable_in_recipes _ _ H) as Hk. split; [exact Hk |].
    unfold meal_logger_macros.
    pose proof (recipe_of_known _ Hk) as Hne. unfold macros_for_dish.
    destruct (recipe_of dish); [contradiction | reflexivity].
  - unfold meal_logger_macros. cbn [bind]. destruct enable_gerd; reflexivity.
  - intros override r. unfold meal_logger_macros.
    destruct (if override then _ else _) as [m | e]; cbn [bind]; [| discriminate].
    intros H. injection H as <-. reflexivity.
Qed.

Lemma meal_logger_macros_paths_witness :
  In "poha" (selectable_dishes "Breakfast") /\
  meal_logger_macros app_np true false 0 0 0 0 "poha" 300 = Raise (NameError "np").
Proof.
  assert (H : In "poha" (selectable_dishes "Breakfast")) by (vm_compute; tauto).
  split; [exact H |].
  exact (proj2 (proj1 (meal_logger_macros_paths app_np "Breakfast" "poha" true 0 0 0 0 300) H)).
Defined.

(** ** [wellness_index_generic] with numpy bound *)

(** X8.  With numpy bound, [wellness_index_generic] returns a score in
    [0, 100] for every input, however far out of range. *)
Theorem wellness_index_bounded_numpy (kcal protein_g sleep_h exercise_min stress_0_10 : Q) :
  exists r, wellness_index_generic numpy_np kcal protein_g sleep_h exercise_min stress_0_10 = Ok r
            /\ 0 <= r /\ r <= 100.
Proof.
  unfold wellness_index_generic, clamp01, numpy_np. cbn [bind].
  eexists; split; [reflexivity |].
  destruct (numpy_clip01_bounds (1 - Qabs (sleep_h - 7.5) / 4.0)).
  destruct (numpy_clip01_bounds (Qmin exercise_min 60 / 60.0)).
  destruct (numpy_clip01_bounds (1 - stress_0_10 / 10.0)).
  destruct (numpy_clip01_bounds (Qmin protein_g 120 / 120.0)).
  destruct (numpy_clip01_bounds (Qmin kcal 3200 / 3200.0)).
  apply py_round1_bounds; lra.
Qed.

Lemma round_half_even_le_succ (x : Q) : (round_half_even x <= Qfloor x + 1)%Z.
Proof.
  unfold round_half_even.
  destruct (Qcompare _ _); [destruct (Z.even _) |..]; lia.
Qed.

Lemma round_half_even_mono (x y : Q) : x <= y -> (round_half_even x <= round_half_even y)%Z.
Proof.
  intros H. pose proof (Qfloor_resp_le _ _ H) as Hf.
  destruct (Z.eq_dec (Qfloor x) (Qfloor y)) as [E | NE].
  - unfold round_half_even. rewrite <- E.
    destruct (Qcompare (x - inject_Z (Qfloor x)) (1 # 2)) eqn:E1;
    destruct (Qcompare (y - inject_Z (Qfloor x)) (1 # 2)) eqn:E2;
    try (destruct (Z.even (Qfloor x))); try lia; exfalso;
    repeat match goal with
    | Hc : Qcompare _ _ = Eq |- _ => apply Qeq_alt in Hc
    | Hc : Qcompare _ _ = Lt |- _ => apply Qlt_alt in Hc
    | Hc : Qcompare _ _ = Gt |- _ => apply Qgt_alt in Hc
    end; lra.
  - pose proof (round_half_even_le_succ x). pose proof (round_half_even_ge_floor y). lia.
Qed.

Lemma py_round_mono (x y : Q) (n : nat) : x <= y -> py_round x n <= py_round y n.
Proof.
  intros H. unfold py_round. pose proof (py_round_scale_pos n) as Hp.
  set (p := inject_Z (10 ^ Z.of_nat n)) in *.
  assert (Hz : inject_Z (round_half_even (x * p)) <= inject_Z (round_half_even (y * p))).
  { rewrite <- Zle_Qle. apply round_half_even_mono.
    apply Qmult_le_compat_r; [exact H | apply Qlt_le_weak; exact Hp]. }
  unfold Qdiv. apply Qmult_le_compat_r; [exact Hz |].
  apply Qinv_le_0_compat, Qlt_le_weak, Hp.
Qed.

Lemma numpy_clip_mono (x y lo hi : Q) : x <= y -> numpy_clip x lo hi <= numpy_clip y lo hi.
Proof.
  intros H. unfold numpy_clip. apply Q.min_le_compat_r, Q.max_le_compat_r, H.
Qed.

Lemma div_const_mono (x y c : Q) : 0 < c -> x <= y -> x / c <= y / c.
Proof.
  intros Hc H. unfold Qdiv. apply Qmult_le_compat_r; [exact H |].
  apply Qinv_le_0_compat, Qlt_le_weak, Hc.
Qed.

Lemma clamp01_numpy_mono (x y : Q) : x <= y ->
  numpy_clip x 0 1 <= numpy_clip y 0 1.
Proof. apply numpy_clip_mono. Qed.

(** X9.  With numpy bound, the wellness score never decreases when calories,
    protein or exercise go up, or when stress goes down (sleep fixed). *)
Theorem wellness_index_monotone
  (kcal kcal' protein_g protein_g' sleep_h exercise_min exercise_min' stress stress' r r' : Q) :
  kcal <= kcal' -> protein_g <= protein_g' -> exercise_min <= exercise_min' -> stress' <= stress ->
  wellness_index_generic numpy_np kcal protein_g sleep_h exercise_min stress = Ok r ->
  wellness_index_generic numpy_np kcal' protein_g' sleep_h exercise_min' stress' = Ok r' ->
  r <= r'.
Proof.
  intros Hk Hp He Hs H H'.
  unfold wellness_index_generic, clamp01, numpy_np in H, H'. cbn [bind] in H, H'.
  injection H as <-. injection H' as <-.
  apply py_round_mono.
  assert (Ee : numpy_clip (Qmin exercise_min 60 / 60.0) 0 1 <= numpy_clip (Qmin exercise_min' 60 / 60.0) 0 1).
  { apply numpy_clip_mono, div_const_mono; [reflexivity | apply Q.min_le_compat_r, He]. }
  assert (Ep : numpy_clip (Qmin protein_g 120 / 120.0) 0 1 <= numpy_clip (Qmin protein_g' 120 / 120.0) 0 1).
  { apply numpy_clip_mono, div_const_mono; [reflexivity | apply Q.min_le_compat_r, Hp]. }
  assert (Ek : numpy_clip (Qmin kcal 3200 / 3200.0) 0 1 <= numpy_clip (Qmin kcal' 3200 / 3200.0) 0 1).
  { apply numpy_clip_mono, div_const_mono; [reflexivity | apply Q.min_le_compat_r, Hk]. }
  assert (Es : numpy_clip (1 - stress / 10.0) 0 1 <= numpy_clip (1 - stress' / 10.0) 0 1).
  { apply numpy_clip_mono.
    assert (stress' / 10.0 <= stress / 10.0) by (apply div_const_mono; [reflexivity | exact Hs]).
    lra. }
  lra.
Qed.

Lemma wellness_index_monotone_witness :
  wellness_index_generic numpy_np 1800 60 7 20 6 = Ok 56.0 /\
  wellness_index_generic numpy_np 2200 90 7 45 3 = Ok 76.9 /\ 56.0 <= 76.9.
Proof.
  assert (H1 : wellness_index_generic numpy_np 1800 60 7 20 6 = Ok 56.0) by (vm_compute; reflexivity).
  assert (H2 : wellness_index_generic numpy_np 2200 90 7 45 3 = Ok 76.9) by (vm_compute; reflexivity).
  split; [exact H1 | split; [exact H2 |]].
  apply (wellness_index_monotone 1800 2200 60 90 7 20 45 6 3 56.0 76.9);
    try exact H1; try exact H2; vm_compute; discriminate.
Defined.

Lemma ok_inj {A : Type} (a b : A) : Ok a = Ok b -> a = b.
Proof. intros H. injection H. auto. Qed.

Lemma wellness_index_numpy_unfold (kcal protein_g sleep_h exercise_min stress : Q) :
  wellness_index_generic numpy_np kcal protein_g sleep_h exercise_min stress =
  Ok (py_round (100 * (0.30 * numpy_clip (1 - Qabs (sleep_h - 7.5) / 4.0) 0 1
                      + 0.20 * numpy_clip (Qmin exercise_min 60 / 60.0) 0 1
                      + 0.25 * numpy_clip (1 - stress / 10.0) 0 1
                      + 0.15 * numpy_clip (Qmin protein_g 120 / 120.0) 0 1
                      + 0.10 * numpy_clip (Qmin kcal 3200 / 3200.0) 0 1)) 1).
Proof. cbv beta iota zeta delta [wellness_index_generic clamp01 numpy_np bind]. reflexivity. Qed.

Lemma clip01_one (x : Q) : 1 <= x -> numpy_clip x 0 1 == 1.
Proof.
  intros H. unfold numpy_clip. rewrite (Q.max_l x 0) by lra. apply Q.min_r, H.
Qed.

Lemma clip01_zero (x : Q) : x <= 0 -> numpy_clip x 0 1 == 0.
Proof.
  intros H. unfold numpy_clip. rewrite (Q.max_r x 0) by exact H. apply Q.min_l. lra.
Qed.

Lemma py_round_compat (x y : Q) (n : nat) : x == y -> py_round x n == py_round y n.
Proof.
  intros H. apply Qle_antisym; apply py_round_mono; rewrite H; apply Qle_refl.
Qed.

(** X10.  With numpy bound, the score saturates: at least 3200 kcal, 120 g
    protein and 60 exercise minutes, stress 0 or less and exactly 7.5 h sleep
    score 100; no calories, no protein, no exercise, stress 10 or more and a
    sleep 4 h or more away from 7.5 h score 0. *)
Theorem wellness_index_saturates (kcal protein_g sleep_h exercise_min stress r : Q) :
  wellness_index_generic numpy_np kcal protein_g sleep_h exercise_min stress = Ok r ->
  (3200 <= kcal -> 120 <= protein_g -> 60 <= exercise_min -> stress <= 0 -> sleep_h == 7.5 ->
     r == 100) /\
  (kcal <= 0 -> protein_g <= 0 -> exercise_min <= 0 -> 10 <= stress -> 4 <= Qabs (sleep_h - 7.5) ->
     r == 0).
Proof.
  intros H. rewrite wellness_index_numpy_unfold in H.
  apply ok_inj in H. subst r. split.
  - intros Hk Hp He Hs Hsl.
    assert (A1 : numpy_clip (1 - Qabs (sleep_h - 7.5) / 4.0) 0 1 == 1).
    { apply clip01_one. rewrite Hsl. vm_compute. discriminate. }
    assert (A2 : numpy_clip (Qmin exercise_min 60 / 60.0) 0 1 == 1).
    { apply clip01_one. rewrite (Q.min_r exercise_min 60 He). vm_compute. discriminate. }
    assert (A3 : numpy_clip (1 - stress / 10.0) 0 1 == 1).
    { apply clip01_one.
      assert (stress / 10.0 <= 0 / 10.0) by (apply div_const_mono; [reflexivity | exact Hs]).
      assert (E0 : 0 / 10.0 == 0) by reflexivity. lra. }
    assert (A4 : numpy_clip (Qmin protein_g 120 / 120.0) 0 1 == 1).
    { apply clip01_one. rewrite (Q.min_r protein_g 120 Hp). vm_compute. discriminate. }
    assert (A5 : numpy_clip (Qmin kcal 3200 / 3200.0) 0 1 == 1).
    { apply clip01_one. rewrite (Q.min_r kcal 3200 Hk). vm_compute. discriminate. }
    apply Qeq_trans with (py_round 100 1); [apply py_round_compat; lra | reflexivity].
  - intros Hk Hp He Hs Hsl.
    assert (A1 : numpy_clip (1 - Qabs (sleep_h - 7.5) / 4.0) 0 1 == 0).
    { apply clip01_zero.
      assert (4 / 4.0 <= Qabs (sleep_h - 7.5) / 4.0) by (apply div_const_mono; [reflexivity | exact Hsl]).
      assert (E0 : 4 / 4.0 == 1) by reflexivity. lra. }
    assert (A2 : numpy_clip (Qmin exercise_min 60 / 60.0) 0 1 == 0).
    { apply clip01_zero. rewrite (Q.min_l exercise_min 60) by lra.
      assert (exercise_min / 60.0 <= 0 / 60.0) by (apply div_const_mono; [reflexivity | exact He]).
      assert (E0 : 0 / 60.0 == 0) by reflexivity. lra. }
    assert (A3 : numpy_clip (1 - stress / 10.0) 0 1 == 0).
    { apply clip01_zero.
      assert (10 / 10.0 <= stress / 10.0) by (apply div_const_mono; [reflexivity | exact Hs]).
      assert (E0 : 10 / 10.0 == 1) by reflexivity. lra. }
    assert (A4 : numpy_clip (Qmin protein_g 120 / 120.0) 0 1 == 0).
    { apply clip01_zero. rewrite (Q.min_l protein_g 120) by lra.
      assert (protein_g / 120.0 <= 0 / 120.0) by (apply div_const_mono; [reflexivity | exact Hp]).
      assert (E0 : 0 / 120.0 == 0) by reflexivity. lra. }
    assert (A5 : numpy_clip (Qmin kcal 3200 / 3200.0) 0 1 == 0).
    { apply clip01_zero. rewrite (Q.min_l kcal 3200) by lra.
      assert (kcal / 3200.0 <= 0 / 3200.0) by (apply div_const_mono; [reflexivity | exact Hk]).
      assert (E0 : 0 / 3200.0 == 0) by reflexivity. lra. }
    apply Qeq_trans with (py_round 0 1); [apply py_round_compat; lra | reflexivity].
Qed.

Lemma wellness_index_saturates_witness :
  wellness_index_generic numpy_np 3500 150 7.5 90 0 = Ok 100.0 /\ 100.0 == 100.
Proof.
  assert (H : wellness_index_generic numpy_np 3500 150 7.5 90 0 = Ok 100.0) by (vm_compute; reflexivity).
  split; [exact H |].
  apply (proj1 (wellness_index_saturates 3500 150 7.5 90 0 100.0 H));
    [vm_compute; discriminate | vm_compute; discriminate | vm_compute; discriminate
    | vm_compute; discriminate | reflexivity].
Defined.

(** ** [protein_target] and the pacing of [goal_panel] *)

(** X11.  For a non-negative weight, [protein_target] is non-negative and
    ordered by goal type: any goal type other than "gain" or "loss" gets at
    most the "loss" target, which is at most the "gain" target. *)
Theorem protein_target_ordered (weight : Q) (other : string) :
  0 <= weight -> other <> "gain" -> other <> "loss" ->
  0 <= protein_target weight other /\
  protein_target weight other <= protein_target weight "loss" /\
  protein_target weight "loss" <= protein_target weight "gain".
Proof.
  intros Hw Hg Hl. unfold protein_target.
  apply String.eqb_neq in Hg, Hl. rewrite Hg, Hl. cbn [String.eqb].
  repeat split.
  - apply py_round_nonneg. lra.
  - apply py_round_mono. lra.
  - apply py_round_mono. lra.
Qed.

Lemma protein_target_ordered_witness :
  0 <= protein_target 72.5 "maintain" /\
  protein_target 72.5 "maintain" <= protein_target 72.5 "loss" /\
  protein_target 72.5 "loss" <= protein_target 72.5 "gain".
Proof.
  apply protein_target_ordered; [vm_compute; discriminate | discriminate | discriminate].
Defined.

(** X12.  The per-day pace shown by [goal_panel] agrees with
    [daily_weight_change] while the target date lies ahead; once it is today
    or past, the panel divides by [days_left = 1] and shows the whole change
    per day, where [daily_weight_change] would give 0.0. *)
Theorem goal_plan_vs_daily_weight_change (start_w target_w : Q) (target_d today : date) :
  ((1 <= date_sub_days target_d today)%Z ->
     per_day (goal_plan start_w target_w target_d today)
     == daily_weight_change target_w start_w (inject_Z (date_sub_days target_d today))) /\
  ((date_sub_days target_d today <= 0)%Z ->
     days_left (goal_plan start_w target_w target_d today) = 1%Z /\
     per_day (goal_plan start_w target_w target_d today) == target_w - start_w /\
     daily_weight_change target_w start_w (inject_Z (date_sub_days target_d today)) == 0.0).
Proof.
  unfold goal_plan, daily_weight_change; cbn [per_day days_left]. split.
  - intros H. rewrite Z.max_r by exact H.
    destruct (Qle_bool (inject_Z (date_sub_days target_d today)) 0) eqn:E.
    + apply Qle_bool_iff in E.
      assert (H1 : inject_Z 1 <= inject_Z (date_sub_days target_d today)) by (rewrite <- Zle_Qle; exact H).
      change (inject_Z 1) with 1 in H1. lra.
    + reflexivity.
  - intros H. rewrite Z.max_l by lia. split; [reflexivity | split].
    + change (inject_Z 1) with 1. field.
    + assert (E : Qle_bool (inject_Z (date_sub_days target_d today)) 0 = true).
      { apply Qle_bool_iff. change 0 with (inject_Z 0). rewrite <- Zle_Qle. exact H. }
      rewrite E. reflexivity.
Qed.

Lemma goal_plan_vs_daily_weight_change_witness :
  per_day (goal_plan 80 72 (mkDate 2026 12 27) (mkDate 2026 10 18))
  == daily_weight_change 72 80 (inject_Z (date_sub_days (mkDate 2026 12 27) (mkDate 2026 10 18))).
Proof.
  apply (proj1 (goal_plan_vs_daily_weight_change 80 72 (mkDate 2026 12 27) (mkDate 2026 10 18))).
  vm_compute. discriminate.
Defined.

(** ** [upsert_daily]: the table invariant and idempotence *)



Lemma row_matches_key (person log_date : string) (r r' : DailyRow) :
  row_person r' = row_person r -> row_log_date r' = row_log_date r ->
  row_matches person log_date r' = row_matches person log_date r.
Proof. intros Hp Hd. unfold row_matches. rewrite Hp, Hd. reflexivity. Qed.


Lemma select_daily_id_some (t : DailyTable) (person log_date : string) (i : nat) :
  select_daily_id t person log_date = Some i ->
  exists r, In r (rows t) /\ row_matches person log_date r = true /\ row_id r = i.
Proof.
  unfold select_daily_id.
  destruct (find (row_matches person log_date) (rows t)) as [r |] eqn:E; [| discriminate].
  intros H. injection H as <-. apply find_some in E as [Hin Hm]. eauto.
Qed.

Lemma select_daily_id_none (t : DailyTable) (person log_date : string) :
  select_daily_id t person log_date = None ->
  forall r, In r (rows t) -> row_matches person log_date r = false.
Proof.
  unfold select_daily_id.
  destruct (find (row_matches person log_date) (rows t)) as [r |] eqn:E; [discriminate |].
  intros _ r Hin. exact (find_none _ _ E r Hin).
Qed.



(** X14.  Repeating the same [upsert_daily] call changes nothing: the second
    call finds the row the first wrote and updates it to the same values. *)
Theorem upsert_daily_idempotent (t : DailyTable) (person log_date : string)
  (kwargs : list (string * SqlVal)) :
  upsert_daily (upsert_daily t person log_date kwargs) person log_date kwargs
  = upsert_daily t person log_date kwargs.
Proof.
  set (data := upsert_data kwargs).
  set (f := fun r => if row_matches person log_date r
        then mkRow (row_id r) (row_person r) (row_log_date r) data else r).
  assert (Hff : forall r, f (f r) = f r).
  { intros r. unfold f. destruct (row_matches person log_date r) eqn:E; [| rewrite E; reflexivity].
    rewrite (row_matches_key person log_date r) by reflexivity. rewrite E. reflexivity. }
  unfold upsert_daily at 2.
  destruct (select_daily_id t person log_date) as [i |] eqn:Es.
  - pose proof (select_daily_id_some _ _ _ _ Es) as (r0 & Hin & Hm0 & _).
    unfold upsert_daily. fold data. fold f. rewrite Es.
    destruct (select_daily_id (mkTable (map f (rows t)) (next_id t)) person log_date) eqn:Es2.
    + cbn [rows next_id]. rewrite map_map. f_equal. apply map_ext. exact Hff.
    + exfalso. pose proof (select_daily_id_none _ _ _ Es2 (f r0)) as Hc. cbn [rows] in Hc.
      specialize (Hc (in_map f _ _ Hin)). unfold f in Hc. rewrite Hm0 in Hc.
      rewrite (row_matches_key person log_date r0) in Hc by reflexivity. congruence.
  - unfold upsert_daily. fold data. fold f. rewrite Es.
    set (nr := mkRow (next_id t) person log_date data).
    assert (Hnew : row_matches person log_date nr = true) by (apply row_matches_true; reflexivity).
    destruct (select_daily_id (mkTable (rows t ++ [nr]) (S (next_id t))) person log_date) eqn:Es2.
    + cbn [rows next_id]. rewrite map_app. cbn [map]. f_equal. f_equal.
      * transitivity (map (fun r => r) (rows t)); [| apply map_id].
        apply map_ext_in. intros r Hr. unfold f.
        rewrite (select_daily_id_none _ _ _ Es r Hr). reflexivity.
      * unfold f. rewrite Hnew. reflexivity.
    + exfalso. pose proof (select_daily_id_none _ _ _ Es2 nr) as Hc. cbn [rows] in Hc.
      rewrite Hc in Hnew; [discriminate |]. apply in_or_app. right. left. reflexivity.
Qed.

(** ** [set_goal] and [get_goal] on the [goals] table *)

Lemma goal_matches_true (person goal_type : string) (r : GoalRow) :
  goal_matches person goal_type r = true <-> (g_person r, g_goal_type r) = (person, goal_type).
Proof.
  unfold goal_matches. rewrite andb_true_iff, !String.eqb_eq.
  split; [intros [-> ->]; reflexivity | intros H; injection H; tauto].
Qed.

Lemma find_map_other (m : GoalRow -> bool) (f : GoalRow -> GoalRow) (t : list GoalRow) :
  (forall r, m (f r) = m r) -> (forall r, m r = true -> f r = r) ->
  find m (map f t) = find m t.
Proof.
  intros Hm Hf. induction t as [| a t IH]; [reflexivity |].
  cbn [map find]. rewrite Hm. destruct (m a) eqn:E; [rewrite (Hf a E); reflexivity | exact IH].
Qed.

Lemma find_map_first (m : GoalRow -> bool) (row : GoalRow) (t : list GoalRow) :
  m row = true -> existsb m t = true ->
  find m (map (fun r => if m r then row else r) t) = Some row.
Proof.
  intros Hrow. induction t as [| a t IH]; cbn [existsb]; [discriminate |].
  cbn [map find]. destruct (m a) eqn:E.
  - rewrite Hrow. reflexivity.
  - rewrite E. exact IH.
Qed.

Lemma find_app_none {A} (m : A -> bool) (l : list A) (x : A) :
  existsb m l = false -> m x = true -> find m (l ++ [x]) = Some x.
Proof.
  induction l as [| a l IH]; cbn [existsb app find]; intros Hl Hx.
  - rewrite Hx. reflexivity.
  - apply orb_false_iff in Hl as [Ha Hl]. rewrite Ha. exact (IH Hl Hx).
Qed.

Lemma find_app_some {A} (m : A -> bool) (l l' : list A) (x : A) :
  find m l = Some x -> find m (l ++ l') = Some x.
Proof.
  induction l as [| a l IH]; cbn [find app]; [discriminate |].
  destruct (m a); [tauto | exact IH].
Qed.

Lemma find_app_skip {A} (m : A -> bool) (l l' : list A) :
  find m l = None -> find m (l ++ l') = find m l'.
Proof.
  induction l as [| a l IH]; cbn [find app]; [reflexivity |].
  destruct (m a); [discriminate | exact IH].
Qed.

(** X15.  Reading a goal back after saving it returns what was saved, with
    today's date as its start date, whether the (person, goal type) pair
    was new (INSERT) or already present (ON CONFLICT ... DO UPDATE). *)
Theorem get_goal_set_goal (t : list GoalRow) (today : date) (person goal_type : string)
  (start_weight target_weight : Q) (target_date : string) (kcal_adjust protein_target : Q) :
  get_goal (set_goal t today person goal_type start_weight target_weight target_date
              kcal_adjust protein_target) person goal_type
  = Some (mkGoalInfo (isoformat today) start_weight target_weight target_date
                     kcal_adjust protein_target).
Proof.
  unfold get_goal, set_goal.
  set (row := mkGoal person goal_type (isoformat today) start_weight target_weight
                     target_date kcal_adjust protein_target).
  assert (Hrow : goal_matches person goal_type row = true)
    by (apply goal_matches_true; reflexivity).
  destruct (existsb (goal_matches person goal_type) t) eqn:E.
  - rewrite (find_map_first _ row t Hrow E). reflexivity.
  - rewrite (find_app_none _ t row E Hrow). reflexivity.
Qed.

(** X16.  [set_goal] leaves every other (person, goal type) pair's goal as
    it was, and keeps the table's [UNIQUE(person, goal_type)] constraint. *)
Theorem set_goal_frame (t : list GoalRow) (today : date) (person goal_type : string)
  (start_weight target_weight : Q) (target_date : string) (kcal_adjust protein_target : Q) :
  let t' := set_goal t today person goal_type start_weight target_weight target_date
              kcal_adjust protein_target in
  (forall person' goal_type', (person', goal_type') <> (person, goal_type) ->
     get_goal t' person' goal_type' = get_goal t person' goal_type') /\
  (NoDup (map (fun r => (g_person r, g_goal_type r)) t) ->
   NoDup (map (fun r => (g_person r, g_goal_type r)) t')).
Proof.
  cbv zeta. unfold set_goal.
  set (row := mkGoal person goal_type (isoformat today) start_weight target_weight
                     target_date kcal_adjust protein_target).
  assert (Hrow : goal_matches person goal_type row = true)
    by (apply goal_matches_true; reflexivity).
  set (f := fun r => if goal_matches person goal_type r then row else r).
  assert (Hkey : forall r, (g_person (f r), g_goal_type (f r)) = (g_person r, g_goal_type r)).
  { intros r. unfold f. destruct (goal_matches person goal_type r) eqn:E; [| reflexivity].
    apply goal_matches_true in E. rewrite E. reflexivity. }
  destruct (existsb (goal_matches person goal_type) t) eqn:E; split.
  - intros p' g' Hne. unfold get_goal. rewrite find_map_other; [reflexivity | |].
    + intros r. unfold goal_matches. pose proof (Hkey r) as Hk. injection Hk as Hp Hg.
      rewrite Hp, Hg. reflexivity.
    + intros r Hr. unfold f. destruct (goal_matches person goal_type r) eqn:Er; [| reflexivity].
      exfalso. apply goal_matches_true in Hr, Er. apply Hne. congruence.
  - intros Hnd. rewrite map_map. erewrite map_ext; [exact Hnd |]. exact Hkey.
  - intros p' g' Hne. unfold get_goal.
    destruct (find (goal_matches p' g') t) as [r |] eqn:Ef.
    + rewrite (find_app_some _ t [row] r Ef). reflexivity.
    + rewrite (find_app_skip _ t [row] Ef). cbn [find]. destruct (goal_matches p' g' row) eqn:Er; [| reflexivity].
    exfalso. apply goal_matches_true in Er. apply Hne. exact (eq_sym Er).
  - intros Hnd. rewrite map_app. cbn [map].
    apply NoDup_app; [exact Hnd | constructor; [intros [] | constructor] |].
    intros k Hk [Hk' | []]. rewrite <- Hk' in Hk. cbn [g_person g_goal_type row] in Hk.
    apply in_map_iff in Hk as (r & Hr & Hin).
    assert (Hm : goal_matches person goal_type r = true) by (apply goal_matches_true; exact Hr).
    pose proof (proj2 (existsb_exists _ t) (ex_intro _ r (conj Hin Hm))). congruence.
Qed.

Lemma set_goal_frame_witness :
  get_goal (set_goal [mkGoal "Alice" "loss" "2026-09-01" 80 72 "2026-12-31" (-300) 120]
              (mkDate 2026 10 18) "Alice" "gain" 60 65 "2027-03-01" 300 108) "Alice" "loss"
  = get_goal [mkGoal "Alice" "loss" "2026-09-01" 80 72 "2026-12-31" (-300) 120] "Alice" "loss".
Proof.
  apply (proj1 (set_goal_frame [mkGoal "Alice" "loss" "2026-09-01" 80 72 "2026-12-31" (-300) 120]
              (mkDate 2026 10 18) "Alice" "gain" 60 65 "2027-03-01" 300 108)).
  discriminate.
Defined.

(** ** [week_summary]: when it answers, and which rows it averages *)

Lemma dropna_date_nil (rs : list LogRec) :
  (forall r, In r rs -> r_date r = None) -> dropna_date rs = [].
Proof.
  induction rs as [| r rs IH]; intros H; [reflexivity |].
  unfold dropna_date. cbn [flat_map]. rewrite (H r (or_introl eq_refl)). cbn [app].
  apply IH. intros x Hx. apply H. right. exact Hx.
Qed.

(** X17.  For a frame, [week_summary] returns [None] exactly when no row
    has a date that [pd.to_datetime] can parse (an empty frame included). *)
Theorem week_summary_none_iff (f : Frame) :
  week_summary (Some f) = None <-> (forall r, In r (frame_rows f) -> r_date r = None).
Proof.
  split.
  - intros H r Hin. destruct (r_date r) as [k |] eqn:E; [exfalso | reflexivity].
    assert (Hpos : (0 < length (dropna_date (frame_rows f)))%nat)
      by (apply dropna_date_nonempty; exists r; rewrite E; split; [exact Hin | discriminate]).
    assert (Hw : (0 < length (last7 f))%nat) by (rewrite last7_length; lia).
    unfold week_summary in H.
    destruct (frame_rows f) as [| r0 rs]; [destruct Hin |].
    destruct (last7 f); [cbn in Hw; lia | discriminate].
  - intros Hall. unfold week_summary.
    assert (Hw : last7 f = []).
    { pose proof (last7_length f) as Hl. rewrite (dropna_date_nil _ Hall) in Hl.
      destruct (last7 f); [reflexivity | discriminate]. }
    destruct (frame_rows f); [reflexivity |]. rewrite Hw. reflexivity.
Qed.

Lemma insert_by_date_perm (x : Z * LogRec) (l : list (Z * LogRec)) :
  Permutation (insert_by_date x l) (x :: l).
Proof.
  induction l as [| y l IH]; cbn [insert_by_date]; [reflexivity |].
  destruct (fst x <? fst y)%Z; [reflexivity |].
  eapply perm_trans; [apply perm_skip, IH | apply perm_swap].
Qed.

Lemma sort_by_date_perm (l : list (Z * LogRec)) : Permutation (sort_by_date l) l.
Proof.
  induction l as [| x l IH]; cbn [sort_by_date]; [reflexivity |].
  eapply perm_trans; [apply insert_by_date_perm | apply perm_skip, IH].
Qed.

Lemma insert_by_date_sorted (x : Z * LogRec) (l : list (Z * LogRec)) :
  StronglySorted date_le l -> StronglySorted date_le (insert_by_date x l).
Proof.
  induction l as [| y l IH]; intros Hs; cbn [insert_by_date].
  - constructor; [constructor | constructor].
  - apply StronglySorted_inv in Hs as [Hs Hy].
    destruct (fst x <? fst y)%Z eqn:E.
    + apply Z.ltb_lt in E. constructor; [constructor; assumption |].
      constructor; [unfold date_le; lia |].
      eapply Forall_impl; [| exact Hy]. intros z Hz. unfold date_le in *. lia.
    + apply Z.ltb_ge in E. constructor; [exact (IH Hs) |].
      apply Forall_forall. intros z Hz.
      apply (Permutation_in _ (insert_by_date_perm x l)) in Hz as [<- | Hz];
        [unfold date_le; lia | exact (proj1 (Forall_forall _ _) Hy z Hz)].
Qed.

Lemma sort_by_date_sorted (l : list (Z * LogRec)) : StronglySorted date_le (sort_by_date l).
Proof.
  induction l as [| x l IH]; cbn [sort_by_date]; [constructor | apply insert_by_date_sorted, IH].
Qed.

Lemma sorted_app_split (a b : list (Z * LogRec)) :
  StronglySorted date_le (a ++ b) ->
  StronglySorted date_le b /\ (forall x y, In x a -> In y b -> date_le x y).
Proof.
  induction a as [| z a IH]; cbn [app]; intros Hs; [split; [exact Hs | intros x y []] |].
  apply StronglySorted_inv in Hs as [Hs Hz]. destruct (IH Hs) as [Hb Hab]. split; [exact Hb |].
  intros x y [<- | Hx] Hy; [| exact (Hab x y Hx Hy)].
  apply (proj1 (Forall_forall _ _) Hz). apply in_or_app. right. exact Hy.
Qed.

(** X18.  The rows [week_summary] averages are the up to seven latest
    dated rows: the dated rows split into an older part and a window of
    [min 7 n] rows, in ascending date order, whose record cells are [last7];
    every older row's date is at most every window row's date. *)
Theorem week_summary_window_latest (f : Frame) :
  exists older window : list (Z * LogRec),
    Permutation (dropna_date (frame_rows f)) (older ++ window) /\
    map snd window = last7 f /\
    length window = Nat.min 7 (length (dropna_date (frame_rows f))) /\
    StronglySorted date_le window /\
    (forall x y, In x older -> In y window -> (fst x <= fst y)%Z).
Proof.
  set (s := sort_by_date (dropna_date (frame_rows f))).
  set (k := (length s - 7)%nat).
  exists (firstn k s), (skipn k s).
  pose proof (sorted_app_split (firstn k s) (skipn k s)) as Hsplit.
  rewrite firstn_skipn in Hsplit. destruct (Hsplit (sort_by_date_sorted _)) as [Hw Hord].
  split; [| split; [| split; [| split]]].
  - rewrite firstn_skipn. symmetry. apply sort_by_date_perm.
  - reflexivity.
  - rewrite length_skipn. unfold k, s. rewrite sort_by_date_length. lia.
  - exact Hw.
  - exact Hord.
Qed.

(** ** The column migrations of [init_db] *)

Lemma ensure_column_spec (cols : list string) (col : string) :
  (exists extra, ensure_column cols col = (cols ++ extra)%list) /\
  In col (ensure_column cols col) /\
  (forall c, In c (ensure_column cols col) -> In c cols \/ c = col) /\
  (NoDup cols -> NoDup (ensure_column cols col)).
Proof.
  unfold ensure_column. destruct (existsb (String.eqb col) cols) eqn:E.
  - apply existsb_exists in E as (c & Hc & Heq). apply String.eqb_eq in Heq. subst c.
    split; [exists []; symmetry; apply app_nil_r |].
    split; [exact Hc |]. split; [tauto | tauto].
  - split; [eexists; reflexivity |].
    split; [apply in_or_app; right; left; reflexivity |].
    split.
    + intros c Hc. apply in_app_or in Hc as [Hc | [<- | []]]; tauto.
    + intros Hnd. apply NoDup_app; [exact Hnd | constructor; [intros [] | constructor] |].
      intros c Hc [Hc' | []]. subst c. assert (Hx : existsb (String.eqb col) cols = true).
      { apply existsb_exists. exists col. split; [exact Hc | apply String.eqb_refl]. }
      congruence.
Qed.

(** X19.  The migrations of [init_db] keep a table's existing columns in
    place (new ones are only appended), leave it with every required column,
    add nothing else, and never add a column twice. *)
Theorem migrate_table_columns (existing : option (list string)) (schema required : list string) :
  let cols := match existing with Some cols => cols | None => schema end in
  let cols' := migrate_table existing schema required in
  NoDup cols ->
  NoDup cols' /\ (exists extra, cols' = (cols ++ extra)%list) /\
  (forall c, In c required -> In c cols') /\
  (forall c, In c cols' -> In c cols \/ In c required).
Proof.
  cbv zeta. unfold migrate_table.
  generalize (match existing with Some cols => cols | None => schema end) as cols.
  induction required as [| col required IH]; intros cols Hnd; cbn [fold_left].
  - split; [exact Hnd | split; [exists []; symmetry; apply app_nil_r | split; [intros c [] | tauto]]].
  - destruct (ensure_column_spec cols col) as [[e He] [Hin [Hsub Hnd']]].
    destruct (IH (ensure_column cols col) (Hnd' Hnd)) as [Hnd2 [[e2 He2] [Hreq Hsub2]]].
    split; [exact Hnd2 |]. split; [| split].
    + exists (e ++ e2)%list. rewrite He2, He. symmetry. apply app_assoc.
    + intros c [<- | Hc]; [| exact (Hreq c Hc)].
      rewrite He2. apply in_or_app. left. exact Hin.
    + intros c Hc. destruct (Hsub2 c Hc) as [Hc' | Hc']; [| right; right; exact Hc'].
      destruct (Hsub c Hc') as [H | ->]; [left; exact H | right; left; reflexivity].
Qed.

Lemma migrate_table_columns_witness :
  NoDup ["id"; "person"; "log_date"] /\
  NoDup (migrate_table (Some ["id"; "person"; "log_date"]) logs_schema logs_columns).
Proof.
  assert (H : NoDup ["id"; "person"; "log_date"]).
  { repeat constructor; cbn; intuition discriminate. }
  split; [exact H |].
  exact (proj1 (migrate_table_columns (Some ["id"; "person"; "log_date"]) logs_schema logs_columns H)).
Defined.

(** ** The [logs] table: [add_meal_log] and [load_logs] *)


Lemma insert_meal_perm (x : MealRow) (l : list MealRow) :
  Permutation (insert_meal x l) (x :: l).
Proof.
  induction l as [| y l IH]; cbn [insert_meal]; [reflexivity |].
  destruct (meal_before x y); [reflexivity |].
  eapply perm_trans; [apply perm_skip, IH | apply perm_swap].
Qed.

Lemma sort_meals_perm (l : list MealRow) : Permutation (sort_meals l) l.
Proof.
  induction l as [| x l IH]; cbn [sort_meals]; [reflexivity |].
  eapply perm_trans; [apply insert_meal_perm | apply perm_skip, IH].
Qed.







(** ** Dates: [date.fromordinal], [date.toordinal] and [date.isoformat] *)

Lemma all_from_spec (k : nat) (i : Z) (p : Z -> bool) :
  all_from k i p = true -> forall x, (i <= x < i + Z.of_nat k)%Z -> p x = true.
Proof.
  revert i. induction k as [| k IH]; intros i H x Hx; cbn [all_from] in H; [lia |].
  apply andb_true_iff in H as [Hi Hk].
  destruct (Z.eq_dec x i) as [-> | Hne]; [exact Hi |]. apply (IH (i + 1)%Z Hk). lia.
Qed.

Lemma is_leap_shift (y k : Z) : is_leap (y + 400 * k) = is_leap y.
Proof.
  unfold is_leap.
  assert (E4 : ((y + 400 * k) mod 4 = y mod 4)%Z)
    by (rewrite <- (Z.mod_add y (100 * k) 4) by lia; f_equal; ring).
  assert (E100 : ((y + 400 * k) mod 100 = y mod 100)%Z)
    by (rewrite <- (Z.mod_add y (4 * k) 100) by lia; f_equal; ring).
  assert (E400 : ((y + 400 * k) mod 400 = y mod 400)%Z)
    by (rewrite <- (Z.mod_add y k 400) by lia; f_equal; ring).
  rewrite E4, E100, E400. reflexivity.
Qed.

Lemma toordinal_shift (y m d k : Z) :
  toordinal (mkDate (y + 400 * k) m d) = (toordinal (mkDate y m d) + 146097 * k)%Z.
Proof.
  unfold toordinal, days_before_month, days_before_year. cbn [year month day].
  rewrite is_leap_shift.
  assert (D4 : ((y + 400 * k - 1) / 4 = (y - 1) / 4 + 100 * k)%Z)
    by (rewrite <- Z.div_add by lia; f_equal; ring).
  assert (D100 : ((y + 400 * k - 1) / 100 = (y - 1) / 100 + 4 * k)%Z)
    by (rewrite <- Z.div_add by lia; f_equal; ring).
  assert (D400 : ((y + 400 * k - 1) / 400 = (y - 1) / 400 + k)%Z)
    by (rewrite <- Z.div_add by lia; f_equal; ring).
  rewrite D4, D100, D400. ring.
Qed.
Lemma div_step (a c : Z) : (0 < c)%Z -> (a / c = (a - 1) / c + (if (a mod c =? 0)%Z then 1 else 0))%Z.
Proof.
  intros Hc. pose proof (Z.div_mod a c ltac:(lia)). pose proof (Z.mod_pos_bound a c Hc).
  destruct (Z.eqb_spec (a mod c) 0) as [E | E].
  - assert (E' : ((a - 1) / c = a / c - 1)%Z) by (symmetry; apply Z.div_unique with (c - 1)%Z; lia).
    rewrite E'. lia.
  - assert (E' : ((a - 1) / c = a / c)%Z) by (symmetry; apply Z.div_unique with (a mod c - 1)%Z; lia).
    rewrite E'. lia.
Qed.

Lemma leap_count (a : Z) :
  ((if is_leap a then 1 else 0) =
   (if (a mod 4 =? 0)%Z then 1 else 0) - (if (a mod 100 =? 0)%Z then 1 else 0)
   + (if (a mod 400 =? 0)%Z then 1 else 0))%Z.
Proof.
  unfold is_leap.
  assert (H100 : (a mod 100 = 0 -> a mod 4 = 0)%Z).
  { intros H. apply Z.mod_divide in H; [| lia]. apply Z.mod_divide; [lia |].
    apply (Z.divide_trans _ 100); [exists 25%Z; reflexivity | exact H]. }
  assert (H400 : (a mod 400 = 0 -> a mod 100 = 0)%Z).
  { intros H. apply Z.mod_divide in H; [| lia]. apply Z.mod_divide; [lia |].
    apply (Z.divide_trans _ 400); [exists 4%Z; reflexivity | exact H]. }
  destruct (Z.eqb_spec (a mod 4) 0), (Z.eqb_spec (a mod 100) 0), (Z.eqb_spec (a mod 400) 0);
    cbn [andb orb negb]; lia.
Qed.

Lemma dby_step (y : Z) :
  days_before_year (y + 1) = (days_before_year y + 365 + (if is_leap y then 1 else 0))%Z.
Proof.
  unfold days_before_year. rewrite leap_count.
  replace (y + 1 - 1)%Z with y by ring.
  rewrite (div_step y 4), (div_step y 100), (div_step y 400) by lia. ring.
Qed.

Lemma dby_mono (y j : Z) : (0 <= j)%Z ->
  (days_before_year y + 365 * j <= days_before_year (y + j))%Z.
Proof.
  intros Hj. rewrite <- (Z2Nat.id j Hj). induction (Z.to_nat j) as [| n IH].
  - cbn [Z.of_nat]. replace (y + 0)%Z with y by ring. lia.
  - rewrite Nat2Z.inj_succ. replace (y + Z.succ (Z.of_nat n))%Z with (y + Z.of_nat n + 1)%Z by ring.
    rewrite dby_step. destruct (is_leap (y + Z.of_nat n)); lia.
Qed.

Lemma month_tables_leap (y y' m : Z) : is_leap y = is_leap y' ->
  days_before_month y m = days_before_month y' m /\ days_in_month y m = days_in_month y' m.
Proof. intros H. unfold days_before_month, days_in_month. rewrite H. split; reflexivity. Qed.

Lemma month_check_at (y : Z) : (y = 2023 \/ y = 2024)%Z ->
  all_from 12 1 (fun m =>
    (0 <=? days_before_month y m)%Z && (1 <=? days_in_month y m)%Z &&
    (days_in_month y m <=? 31)%Z &&
    (days_before_month y m + days_in_month y m <=? 365 + (if is_leap y then 1 else 0))%Z &&
    all_from 12 1 (fun m' => negb (m <? m')%Z ||
      (days_before_month y m + days_in_month y m <=? days_before_month y m')%Z)) = true.
Proof. intros [-> | ->]; vm_compute; reflexivity. Qed.

Lemma month_facts (y m : Z) : (1 <= m <= 12)%Z ->
  (0 <= days_before_month y m)%Z /\ (1 <= days_in_month y m <= 31)%Z /\
  (days_before_month y m + days_in_month y m <= 365 + (if is_leap y then 1 else 0))%Z /\
  (forall m', (m < m' <= 12)%Z -> (days_before_month y m + days_in_month y m <= days_before_month y m')%Z).
Proof.
  intros Hm.
  set (y0 := if is_leap y then 2024%Z else 2023%Z).
  assert (L : is_leap y0 = is_leap y) by (unfold y0; destruct (is_leap y); reflexivity).
  assert (Hy0 : (y0 = 2023 \/ y0 = 2024)%Z) by (unfold y0; destruct (is_leap y); auto).
  pose proof (all_from_spec _ _ _ (month_check_at y0 Hy0) m ltac:(cbn; lia)) as H. cbv beta in H.
  destruct (month_tables_leap y0 y m L) as [E1 E2]. rewrite E1, E2, L in H.
  apply andb_true_iff in H as [H Hall]. apply andb_true_iff in H as [H H4].
  apply andb_true_iff in H as [H H3]. apply andb_true_iff in H as [H1 H2].
  apply Z.leb_le in H1, H2, H3, H4.
  split; [lia | split; [lia | split; [lia |]]].
  intros m' Hm'. pose proof (all_from_spec _ _ _ Hall m' ltac:(cbn; lia)) as H5. cbv beta in H5.
  destruct (month_tables_leap y0 y m' L) as [E3 _]. rewrite E3 in H5.
  apply orb_true_iff in H5 as [H5 | H5]; [apply negb_true_iff, Z.ltb_ge in H5; lia | apply Z.leb_le, H5].
Qed.

(** [days_before_year] of a year given by its place in the 400-, 100-,
    4- and 1-year cycles that [_ord2ymd] walks through. *)
Lemma dby_formula (a b c e : Z) : (0 <= b <= 3)%Z -> (0 <= c <= 24)%Z -> (0 <= e <= 3)%Z ->
  days_before_year (a * 400 + 1 + b * 100 + c * 4 + e)
  = (146097 * a + 36524 * b + 1461 * c + 365 * e)%Z.
Proof.
  intros Hb Hc He. unfold days_before_year. cbv zeta.
  replace (a * 400 + 1 + b * 100 + c * 4 + e - 1)%Z with (400 * a + 100 * b + 4 * c + e)%Z by ring.
  assert (D4 : ((400 * a + 100 * b + 4 * c + e) / 4 = 100 * a + 25 * b + c)%Z)
    by (symmetry; apply Z.div_unique with e; lia).
  assert (D100 : ((400 * a + 100 * b + 4 * c + e) / 100 = 4 * a + b)%Z)
    by (symmetry; apply Z.div_unique with (4 * c + e)%Z; lia).
  assert (D400 : ((400 * a + 100 * b + 4 * c + e) / 400 = a)%Z)
    by (symmetry; apply Z.div_unique with (100 * b + 4 * c + e)%Z; lia).
  rewrite D4, D100, D400. ring.
Qed.

Lemma leap_check :
  all_from 4 0 (fun b => all_from 25 0 (fun c => all_from 4 0 (fun e =>
    Bool.eqb (is_leap (b * 100 + c * 4 + e + 1))
             ((e =? 3)%Z && (negb (c =? 24)%Z || (b =? 3)%Z))))) = true.
Proof. vm_compute. reflexivity. Qed.

(** The [leapyear] flag of [_ord2ymd] is [is_leap] of the year it builds. *)
Lemma leap_formula (a b c e : Z) : (0 <= b <= 3)%Z -> (0 <= c <= 24)%Z -> (0 <= e <= 3)%Z ->
  is_leap (a * 400 + 1 + b * 100 + c * 4 + e)
  = ((e =? 3)%Z && (negb (c =? 24)%Z || (b =? 3)%Z)).
Proof.
  intros Hb Hc He.
  replace (a * 400 + 1 + b * 100 + c * 4 + e)%Z with (b * 100 + c * 4 + e + 1 + 400 * a)%Z by ring.
  rewrite is_leap_shift.
  pose proof (all_from_spec _ _ _ leap_check b ltac:(cbn; lia)) as H1. cbv beta in H1.
  pose proof (all_from_spec _ _ _ H1 c ltac:(cbn; lia)) as H2. cbv beta in H2.
  pose proof (all_from_spec _ _ _ H2 e ltac:(cbn; lia)) as H3. cbv beta in H3.
  apply Bool.eqb_prop in H3. exact H3.
Qed.

Lemma ord2ymd_md_check (lp : bool) :
  all_from 365 0 (fun k =>
    (1 <=? fst (ord2ymd_md k lp))%Z && (fst (ord2ymd_md k lp) <=? 12)%Z &&
    (1 <=? snd (ord2ymd_md k lp))%Z &&
    (snd (ord2ymd_md k lp) <=? days_in_month_table (fst (ord2ymd_md k lp))
                               + (if (fst (ord2ymd_md k lp) =? 2)%Z && lp then 1 else 0))%Z &&
    (days_before_month_table (fst (ord2ymd_md k lp))
     + (if (2 <? fst (ord2ymd_md k lp))%Z && lp then 1 else 0)
     + snd (ord2ymd_md k lp) - 1 =? k)%Z) = true.
Proof. destruct lp; vm_compute; reflexivity. Qed.

Lemma ord2ymd_eq (n : Z) :
  ord2ymd n =
  let a := ((n - 1) / 146097)%Z in let n0 := ((n - 1) mod 146097)%Z in
  let b := (n0 / 36524)%Z in let n1 := (n0 mod 36524)%Z in
  let c := (n1 / 1461)%Z in let n2 := (n1 mod 1461)%Z in
  let e := (n2 / 365)%Z in let n3 := (n2 mod 365)%Z in
  let y := (a * 400 + 1 + b * 100 + c * 4 + e)%Z in
  if (e =? 4)%Z || (b =? 4)%Z then mkDate (y - 1) 12 31
  else let md := ord2ymd_md n3 ((e =? 3)%Z && (negb (c =? 24)%Z || (b =? 3)%Z)) in
       mkDate y (fst md) (snd md).
Proof.
  unfold ord2ymd, ord2ymd_md. cbv zeta.
  destruct (_ || _); [reflexivity |]. destruct (_ <? _)%Z; reflexivity.
Qed.

Lemma toordinal_dec31 (y : Z) :
  toordinal (mkDate y 12 31) = (days_before_year y + 365 + (if is_leap y then 1 else 0))%Z.
Proof.
  unfold toordinal, days_before_month. cbn [year month day].
  change (days_before_month_table 12) with 334%Z.
  change ((2 <? 12)%Z && is_leap y) with (is_leap y). destruct (is_leap y); ring.
Qed.

(** What [_ord2ymd] computes: a date with a month of the year and a day of
    the month, whose ordinal is the argument. *)
Lemma ord2ymd_props (n : Z) :
  toordinal (ord2ymd n) = n /\
  (1 <= month (ord2ymd n) <= 12)%Z /\
  (1 <= day (ord2ymd n) <= days_in_month (year (ord2ymd n)) (month (ord2ymd n)))%Z /\
  ((1 <= n)%Z -> (1 <= year (ord2ymd n))%Z).
Proof.
  rewrite ord2ymd_eq. cbv zeta.
  pose proof (Z.div_mod (n - 1) 146097 ltac:(lia)).
  pose proof (Z.mod_pos_bound (n - 1) 146097 ltac:(lia)).
  set (a := ((n - 1) / 146097)%Z) in *. set (n0 := ((n - 1) mod 146097)%Z) in *.
  pose proof (Z.div_mod n0 36524 ltac:(lia)). pose proof (Z.mod_pos_bound n0 36524 ltac:(lia)).
  set (b := (n0 / 36524)%Z) in *. set (n1 := (n0 mod 36524)%Z) in *.
  pose proof (Z.div_mod n1 1461 ltac:(lia)). pose proof (Z.mod_pos_bound n1 1461 ltac:(lia)).
  set (c := (n1 / 1461)%Z) in *. set (n2 := (n1 mod 1461)%Z) in *.
  pose proof (Z.div_mod n2 365 ltac:(lia)). pose proof (Z.mod_pos_bound n2 365 ltac:(lia)).
  set (e := (n2 / 365)%Z) in *. set (n3 := (n2 mod 365)%Z) in *.
  assert (Hb : (0 <= b <= 4)%Z) by lia. assert (Hc : (0 <= c <= 24)%Z) by lia.
  assert (He : (0 <= e <= 4)%Z) by lia.
  destruct (Z.eqb_spec e 4) as [He4 | He4]; destruct (Z.eqb_spec b 4) as [Hb4 | Hb4]; cbn [orb].
  - exfalso. lia.
  - (* the last day of a leap year of a 4-year cycle *)
    assert (Hc' : (c <= 23)%Z) by lia.
    replace (a * 400 + 1 + b * 100 + c * 4 + e - 1)%Z with (a * 400 + 1 + b * 100 + c * 4 + 3)%Z by lia.
    cbn [year month day]. rewrite toordinal_dec31.
    rewrite (dby_formula a b c 3), (leap_formula a b c 3) by lia.
    destruct (Z.eqb_spec c 24) as [Ec | Ec]; [lia |]. cbn [Z.eqb negb andb orb Pos.eqb].
    unfold days_in_month. cbn [days_in_month_table Z.eqb Pos.eqb andb].
    split; [lia | split; [lia | split; [lia | intros; lia]]].
  - (* the last day of a 400-year cycle *)
    replace (a * 400 + 1 + b * 100 + c * 4 + e - 1)%Z with (400 + 400 * a)%Z by lia.
    cbn [year month day]. rewrite toordinal_shift.
    assert (T : toordinal (mkDate 400 12 31) = 146097%Z) by reflexivity. rewrite T.
    unfold days_in_month. cbn [days_in_month_table Z.eqb Pos.eqb andb].
    split; [lia | split; [lia | split; [lia | intros; lia]]].
  - assert (Hb' : (0 <= b <= 3)%Z) by lia. assert (He' : (0 <= e <= 3)%Z) by lia.
    pose proof (all_from_spec _ _ _ (ord2ymd_md_check ((e =? 3)%Z && (negb (c =? 24)%Z || (b =? 3)%Z)))
                  n3 ltac:(cbn; lia)) as HC. cbv beta in HC.
    destruct (ord2ymd_md n3 _) as [m d]. cbn [fst snd year month day] in HC |- *.
    apply andb_true_iff in HC as [HC K5]. apply andb_true_iff in HC as [HC K4].
    apply andb_true_iff in HC as [HC K3]. apply andb_true_iff in HC as [K1 K2].
    apply Z.leb_le in K1, K2, K3, K4. apply Z.eqb_eq in K5.
    unfold toordinal, days_in_month, days_before_month. cbn [year month day].
    rewrite dby_formula, leap_formula by lia.
    split; [lia | split; [lia | split; [lia | intros; lia]]].
Qed.

Lemma toordinal_ord2ymd (n : Z) : toordinal (ord2ymd n) = n.
Proof. apply ord2ymd_props. Qed.

Lemma ord2ymd_valid (n : Z) : (1 <= n <= 3652059)%Z -> valid_date (ord2ymd n).
Proof.
  intros Hn. destruct (ord2ymd_props n) as (T & Hm & Hd & Hy).
  revert T Hm Hd Hy. destruct (ord2ymd n) as [y m d]. cbn [year month day]. intros T Hm Hd Hy.
  assert (Y : (y <= 9999)%Z).
  { destruct (Z.le_gt_cases y 9999) as [L | G]; [exact L | exfalso].
    pose proof (dby_mono 10000 (y - 10000) ltac:(lia)) as M.
    replace (10000 + (y - 10000))%Z with y in M by ring.
    destruct (month_facts y m Hm) as (B0 & _).
    assert (D : days_before_year 10000 = 3652059%Z) by reflexivity.
    unfold toordinal in T. cbn [year month day] in T. lia. }
  unfold valid_date. cbn [year month day]. specialize (Hy (proj1 Hn)). lia.
Qed.

Lemma string_length_app (s t : string) : String.length (s ++ t) = (String.length s + String.length t)%nat.
Proof. induction s as [| c s IH]; cbn; [reflexivity | rewrite IH; reflexivity]. Qed.

Lemma string_compare_app (s1 s2 t1 t2 : string) :
  String.length s1 = String.length s2 ->
  String.compare (s1 ++ t1) (s2 ++ t2) = lex (String.compare s1 s2) (String.compare t1 t2).
Proof.
  revert s2. induction s1 as [| c1 s1 IH]; intros [| c2 s2] Hl; cbn in Hl |- *;
    try discriminate; [reflexivity |].
  destruct (Ascii.compare c1 c2); [apply IH; lia | reflexivity | reflexivity].
Qed.

Lemma string_compare_cons_same (c : Ascii.ascii) (s t : string) :
  String.compare (String c s) (String c t) = String.compare s t.
Proof. cbn [String.compare]. unfold Ascii.compare. rewrite N.compare_refl. reflexivity. Qed.

Lemma comparison_eqb_true (c d : comparison) : comparison_eqb c d = true -> c = d.
Proof. destruct c, d; cbn; congruence. Qed.

Lemma zero_pad2_check :
  all_from 100 0 (fun a => (String.length (zero_pad 2 a) =? 2)%nat &&
    all_from 100 0 (fun b => comparison_eqb (String.compare (zero_pad 2 a) (zero_pad 2 b))
                                            (Z.compare a b))) = true.
Proof. vm_compute. reflexivity. Qed.

Lemma zero_pad4_check :
  all_from (Z.to_nat 10000) 0 (fun n => String.eqb (zero_pad 4 n)
                               (zero_pad 2 (n / 100) ++ zero_pad 2 (n mod 100))) = true.
Proof. vm_compute. reflexivity. Qed.

Lemma zero_pad2_spec (a b : Z) : (0 <= a < 100)%Z -> (0 <= b < 100)%Z ->
  String.length (zero_pad 2 a) = 2%nat /\
  String.compare (zero_pad 2 a) (zero_pad 2 b) = Z.compare a b.
Proof.
  intros Ha Hb.
  pose proof (all_from_spec _ _ _ zero_pad2_check a ltac:(cbn; lia)) as H. cbv beta in H.
  apply andb_true_iff in H as [Hl H]. split; [apply Nat.eqb_eq, Hl |].
  apply comparison_eqb_true. exact (all_from_spec _ _ _ H b ltac:(cbn; lia)).
Qed.

Lemma zero_pad4_split (n : Z) : (0 <= n < 10000)%Z ->
  zero_pad 4 n = zero_pad 2 (n / 100) ++ zero_pad 2 (n mod 100).
Proof.
  intros Hn. apply String.eqb_eq.
  exact (all_from_spec _ _ _ zero_pad4_check n ltac:(cbn; lia)).
Qed.

Lemma compare_div_mod (n n' c : Z) : (0 < c)%Z ->
  Z.compare n n' = lex (Z.compare (n / c) (n' / c)) (Z.compare (n mod c) (n' mod c)).
Proof.
  intros Hc.
  pose proof (Z.div_mod n c ltac:(lia)). pose proof (Z.div_mod n' c ltac:(lia)).
  pose proof (Z.mod_pos_bound n c Hc). pose proof (Z.mod_pos_bound n' c Hc).
  set (q := (n / c)%Z) in *. set (q' := (n' / c)%Z) in *.
  set (r := (n mod c)%Z) in *. set (r' := (n' mod c)%Z) in *.
  destruct (Z.compare_spec q q') as [E | L | G]; cbn [lex].
  - subst q'. destruct (Z.compare_spec n n'), (Z.compare_spec r r'); try reflexivity; nia.
  - apply Z.compare_lt_iff. nia.
  - apply Z.compare_gt_iff. nia.
Qed.

Lemma zero_pad4_spec (a b : Z) : (0 <= a < 10000)%Z -> (0 <= b < 10000)%Z ->
  String.length (zero_pad 4 a) = 4%nat /\
  String.compare (zero_pad 4 a) (zero_pad 4 b) = Z.compare a b.
Proof.
  intros Ha Hb. rewrite !zero_pad4_split by assumption.
  assert (Qa : (0 <= a / 100 < 100)%Z) by (split; [apply Z.div_pos | apply Z.div_lt_upper_bound]; lia).
  assert (Qb : (0 <= b / 100 < 100)%Z) by (split; [apply Z.div_pos | apply Z.div_lt_upper_bound]; lia).
  assert (Ra : (0 <= a mod 100 < 100)%Z) by (apply Z.mod_pos_bound; lia).
  assert (Rb : (0 <= b mod 100 < 100)%Z) by (apply Z.mod_pos_bound; lia).
  destruct (zero_pad2_spec _ _ Qa Qb) as [L1 C1]. destruct (zero_pad2_spec _ _ Ra Rb) as [L2 C2].
  destruct (zero_pad2_spec _ _ Qb Qa) as [L1' _].
  split; [rewrite string_length_app, L1, L2; reflexivity |].
  rewrite string_compare_app by congruence. rewrite C1, C2.
  symmetry. apply compare_div_mod. lia.
Qed.

Lemma isoformat_compare_lex (y m d y' m' d' : Z) :
  (0 <= y < 10000)%Z -> (0 <= y' < 10000)%Z -> (0 <= m < 100)%Z -> (0 <= m' < 100)%Z ->
  (0 <= d < 100)%Z -> (0 <= d' < 100)%Z ->
  String.compare (isoformat (mkDate y m d)) (isoformat (mkDate y' m' d'))
  = lex (Z.compare y y') (lex (Z.compare m m') (Z.compare d d')).
Proof.
  intros Hy Hy' Hm Hm' Hd Hd'. unfold isoformat. cbn [year month day].
  destruct (zero_pad4_spec _ _ Hy Hy') as [Ly Cy]. destruct (zero_pad4_spec _ _ Hy' Hy) as [Ly' _].
  destruct (zero_pad2_spec _ _ Hm Hm') as [Lm Cm]. destruct (zero_pad2_spec _ _ Hm' Hm) as [Lm' _].
  destruct (zero_pad2_spec _ _ Hd Hd') as [_ Cd].
  rewrite string_compare_app by congruence. rewrite Cy. f_equal.
  cbn [String.append]. rewrite string_compare_cons_same.
  rewrite string_compare_app by congruence. rewrite Cm. f_equal.
  cbn [String.append]. rewrite string_compare_cons_same. exact Cd.
Qed.
Lemma toordinal_compare (a b : date) : valid_date a -> valid_date b ->
  Z.compare (toordinal a) (toordinal b)
  = lex (Z.compare (year a) (year b)) (lex (Z.compare (month a) (month b)) (Z.compare (day a) (day b))).
Proof.
  destruct a as [y m d], b as [y' m' d']. unfold valid_date, toordinal. cbn [year month day].
  intros (Hy & Hm & Hd) (Hy' & Hm' & Hd').
  destruct (month_facts y m Hm) as (A0 & A1 & A2 & A3).
  destruct (month_facts y' m' Hm') as (B0 & B1 & B2 & B3).
  destruct (Z.compare_spec y y') as [<- | L | G]; cbn [lex].
  - destruct (Z.compare_spec m m') as [<- | L | G]; cbn [lex].
    + destruct (Z.compare_spec d d'); [apply Z.compare_eq_iff | apply Z.compare_lt_iff | apply Z.compare_gt_iff]; lia.
    + apply Z.compare_lt_iff. specialize (A3 m' ltac:(lia)). lia.
    + apply Z.compare_gt_iff. specialize (B3 m ltac:(lia)). lia.
  - apply Z.compare_lt_iff.
    pose proof (dby_step y). pose proof (dby_mono (y + 1) (y' - y - 1) ltac:(lia)).
    replace (y + 1 + (y' - y - 1))%Z with y' in * by ring. lia.
  - apply Z.compare_gt_iff.
    pose proof (dby_step y'). pose proof (dby_mono (y' + 1) (y - y' - 1) ltac:(lia)).
    replace (y' + 1 + (y - y' - 1))%Z with y in * by ring. lia.
Qed.

Lemma isoformat_compare_ordinal (a b : date) : valid_date a -> valid_date b ->
  String.compare (isoformat a) (isoformat b) = Z.compare (toordinal a) (toordinal b).
Proof.
  intros Ha Hb. rewrite toordinal_compare by assumption.
  destruct a as [y m d], b as [y' m' d'].
  destruct Ha as (Hy & Hm & Hd), Hb as (Hy' & Hm' & Hd'). cbn [year month day] in *.
  destruct (month_facts y m Hm) as (_ & A1 & _). destruct (month_facts y' m' Hm') as (_ & B1 & _).
  apply isoformat_compare_lex; lia.
Qed.

Lemma toordinal_inj (a b : date) : valid_date a -> valid_date b ->
  toordinal a = toordinal b -> a = b.
Proof.
  intros Ha Hb E. pose proof (toordinal_compare a b Ha Hb) as C.
  rewrite E, Z.compare_refl in C.
  destruct a as [y m d], b as [y' m' d']. cbn [year month day] in C.
  destruct (Z.compare_spec y y') as [<- | _ | _]; cbn [lex] in C; try discriminate.
  destruct (Z.compare_spec m m') as [<- | _ | _]; cbn [lex] in C; try discriminate.
  destruct (Z.compare_spec d d') as [<- | _ | _]; cbn [lex] in C; try discriminate.
  reflexivity.
Qed.

Lemma toordinal_range (d : date) : valid_date d -> (1 <= toordinal d <= 3652059)%Z.
Proof.
  intros Hd.
  assert (V1 : valid_date (mkDate 1 1 1)) by (unfold valid_date; cbn [year month day]; split; [lia | split; [lia |]]; unfold days_in_month; cbn; lia).
  assert (V2 : valid_date (mkDate 9999 12 31)) by (unfold valid_date; cbn [year month day]; split; [lia | split; [lia |]]; unfold days_in_month; cbn; lia).
  pose proof (toordinal_compare _ _ V1 Hd) as C1. pose proof (toordinal_compare _ _ Hd V2) as C2.
  assert (T1 : toordinal (mkDate 1 1 1) = 1%Z) by reflexivity.
  assert (T2 : toordinal (mkDate 9999 12 31) = 3652059%Z) by reflexivity.
  rewrite T1 in C1. rewrite T2 in C2.
  destruct d as [y m dd]. destruct Hd as (Hy & Hm & Hdd). cbn [year month day] in *.
  destruct (month_facts y m Hm) as (_ & (_ & D31) & _).
  split.
  - unfold Z.le. rewrite C1.
    destruct (Z.compare_spec 1 y), (Z.compare_spec 1 m), (Z.compare_spec 1 dd);
      cbn [lex]; try discriminate; lia.
  - unfold Z.le. rewrite C2.
    destruct (Z.compare_spec y 9999), (Z.compare_spec m 12), (Z.compare_spec dd 31);
      cbn [lex]; try discriminate; lia.
Qed.

(** X23.  [date.fromordinal] on any ordinal it accepts ([1] to [3652059],
    the ordinal of 9999-12-31) gives a date the [date] constructor accepts,
    and [toordinal] of that date gives the ordinal back. *)
Theorem toordinal_fromordinal (n : Z) :
  (1 <= n <= 3652059)%Z ->
  valid_date (fromordinal n) /\ toordinal (fromordinal n) = n.
Proof.
  intros Hn. unfold fromordinal.
  split; [apply ord2ymd_valid, Hn | apply toordinal_ord2ymd].
Qed.

Lemma toordinal_fromordinal_witness :
  valid_date (fromordinal 739907) /\ toordinal (fromordinal 739907) = 739907%Z.
Proof. apply (toordinal_fromordinal 739907). lia. Defined.

(** X24.  The ordinal of a valid date lies in [1 .. 3652059], and
    [date.fromordinal] of it gives the date back: [toordinal] and
    [fromordinal] are inverse bijections between valid dates and that range. *)
Theorem fromordinal_toordinal (d : date) :
  valid_date d ->
  (1 <= toordinal d <= 3652059)%Z /\ fromordinal (toordinal d) = d.
Proof.
  intros Hd. pose proof (toordinal_range d Hd) as R. split; [exact R |].
  unfold fromordinal. apply toordinal_inj; [apply ord2ymd_valid, R | exact Hd | apply toordinal_ord2ymd].
Qed.

Lemma fromordinal_toordinal_witness :
  (1 <= toordinal (mkDate 2024 2 29) <= 3652059)%Z /\
  fromordinal (toordinal (mkDate 2024 2 29)) = mkDate 2024 2 29.
Proof.
  assert (E : days_in_month 2024 2 = 29%Z) by reflexivity.
  apply (fromordinal_toordinal (mkDate 2024 2 29)).
  unfold valid_date. cbn [year month day]. rewrite E. lia.
Defined.

(** X25.  On valid dates, SQLite's text order of the [isoformat] strings
    stored in [log_date] and [start_date] is the order of the dates: the
    comparison of the strings is the comparison of the ordinals, and
    [log_date >= since] holds exactly when the date is not before [since]. *)
Theorem isoformat_order (a b : date) : valid_date a -> valid_date b ->
  String.compare (isoformat a) (isoformat b) = Z.compare (toordinal a) (toordinal b) /\
  text_ge (isoformat a) (isoformat b) = (toordinal b <=? toordinal a)%Z.
Proof.
  intros Ha Hb. pose proof (isoformat_compare_ordinal a b Ha Hb) as C. split; [exact C |].
  unfold text_ge. rewrite C.
  destruct (Z.compare_spec (toordinal a) (toordinal b)); symmetry;
    [apply Z.leb_le | apply Z.leb_gt | apply Z.leb_le]; lia.
Qed.

Lemma isoformat_order_witness :
  String.compare (isoformat (mkDate 2024 2 29)) (isoformat (mkDate 2026 10 18))
  = Z.compare (toordinal (mkDate 2024 2 29)) (toordinal (mkDate 2026 10 18)) /\
  text_ge (isoformat (mkDate 2024 2 29)) (isoformat (mkDate 2026 10 18))
  = (toordinal (mkDate 2026 10 18) <=? toordinal (mkDate 2024 2 29))%Z.
Proof.
  assert (E1 : days_in_month 2024 2 = 29%Z) by reflexivity.
  assert (E2 : days_in_month 2026 10 = 31%Z) by reflexivity.
  apply isoformat_order; unfold valid_date; cbn [year month day]; [rewrite E1 | rewrite E2]; lia.
Defined.

(** X26.  A stored meal whose [log_date] is the [isoformat] of a valid date
    [d] is returned by [load_logs(person, days)] exactly when it belongs to
    [person] and [d] is at most [days] days before today (later dates
    included), as long as [today - timedelta(days=days)] is a valid date. *)
Theorem load_logs_window (t : LogsTable) (person : string) (today : date) (days : Z)
  (r : MealRow) (d : date) :
  (1 <= toordinal today - days <= 3652059)%Z ->
  valid_date d -> m_log_date r = isoformat d -> In r (meal_rows t) ->
  (In r (load_logs t person today days) <->
   m_person r = person /\ (date_sub_days today d <= days)%Z).
Proof.
  intros Hn Hd Hr Hin. unfold load_logs, date_sub_days.
  set (n := (toordinal today - days)%Z) in *.
  assert (G : text_ge (m_log_date r) (isoformat (fromordinal n)) = (n <=? toordinal d)%Z).
  { rewrite Hr. unfold text_ge, fromordinal.
    rewrite (isoformat_compare_ordinal d (ord2ymd n) Hd (ord2ymd_valid n Hn)), toordinal_ord2ymd.
    destruct (Z.compare_spec (toordinal d) n); symmetry;
      [apply Z.leb_le | apply Z.leb_gt | apply Z.leb_le]; lia. }
  split.
  - intros H. apply (Permutation_in _ (sort_meals_perm _)) in H.
    apply filter_In in H as [_ H]. apply andb_true_iff in H as [H1 H2].
    rewrite G in H2. apply String.eqb_eq in H1. apply Z.leb_le in H2. split; [exact H1 | lia].
  - intros [H1 H2]. apply (Permutation_in _ (Permutation_sym (sort_meals_perm _))).
    apply filter_In. split; [exact Hin |]. rewrite G, H1, String.eqb_refl.
    cbn [andb]. apply Z.leb_le. lia.
Qed.

Lemma load_logs_window_witness :
  In (mkMeal 1 "Alice" "2026-10-12" "Lunch" "13:00" "dal_rice" 300 0 0 0 0 0 "")
     (load_logs (mkLogs [mkMeal 1 "Alice" "2026-10-12" "Lunch" "13:00" "dal_rice" 300 0 0 0 0 0 ""] 2)
                "Alice" (mkDate 2026 10 18) 7)
  <-> "Alice" = "Alice" /\ (date_sub_days (mkDate 2026 10 18) (mkDate 2026 10 12) <= 7)%Z.
Proof.
  assert (T : toordinal (mkDate 2026 10 18) = 739907%Z) by reflexivity.
  assert (E : days_in_month 2026 10 = 31%Z) by reflexivity.
  apply (load_logs_window
           (mkLogs [mkMeal 1 "Alice" "2026-10-12" "Lunch" "13:00" "dal_rice" 300 0 0 0 0 0 ""] 2)
           "Alice" (mkDate 2026 10 18) 7
           (mkMeal 1 "Alice" "2026-10-12" "Lunch" "13:00" "dal_rice" 300 0 0 0 0 0 "")
           (mkDate 2026 10 12)).
  - rewrite T. lia.
  - unfold valid_date. cbn [year month day]. rewrite E. lia.
  - vm_compute. reflexivity.
  - left. reflexivity.
Defined.

(** ** [load_daily] on the [daily] table *)










(** ** The page script of app.py *)

Ltac not_in_list :=
  let H := fresh "H" in
  intros H; repeat (destruct H as [H | H]; [discriminate H |]); exact H.

(** X28.  [dashboard] is called in the first tab of every profile but is
    defined nowhere, so whichever profile is chosen and whatever the other
    calls do, a run of the page never calls [meal_logger], [daily_logger] or
    [goal_panel]; when the Streamlit and [os] calls, [init_db] and
    [header_block] return normally, it stops with [NameError: name
    'dashboard' is not defined]. *)
Theorem app_page_dashboard (behave : string -> res unit) (choice : string) :
  ~ In "meal_logger" (fst (app_run behave choice)) /\
  ~ In "daily_logger" (fst (app_run behave choice)) /\
  ~ In "goal_panel" (fst (app_run behave choice)) /\
  (behave "st" = Ok tt -> behave "os" = Ok tt -> behave "init_db" = Ok tt ->
   behave "header_block" = Ok tt ->
   snd (app_run behave choice) = Raise (NameError "dashboard")).
Proof.
  unfold app_run, app_script, profile_page, seq, call1, def_. cbn.
  repeat match goal with
         | |- context [behave ?f] => destruct (behave f) as [[] | ?e]; cbn
         | |- context [String.eqb choice ?l] => destruct (String.eqb choice l); cbn
         end;
    repeat split; try not_in_list; intros; try discriminate; reflexivity.
Qed.

Lemma app_page_dashboard_witness :
  snd (app_run (fun _ => Ok tt) "Sushil") = Raise (NameError "dashboard").
Proof.
  apply (app_page_dashboard (fun _ => Ok tt) "Sushil"); reflexivity.
Defined.
